(** * SecondaryTableController: the pool of secondary routing tables

    A shallow embedding of [SecondaryTableController.cpp] (netd).  The
    controller keeps two parallel arrays, [mInterfaceTable] (one interface
    name per routing table) and [mInterfaceRuleCount] (how many rules use
    that table), and drives the external [ip] and [iptables] tools.

    - C++ [int] values are integers of [Z]; [++], [--] and [+] reduce their
      result to 32 bits two's complement ([wrap_int]).
    - A [char*] is the [string] of the characters before its terminating
      NUL; a row of [mInterfaceTable] is the C string it holds.
    - The object is threaded explicitly: every member function takes the
      state and returns its [int] result with the new state.
    - Everything outside the file (process execution, [execIptables], the
      UID mark map) is reached through the class [Externals]; each call, and
      each reply sent to the socket client, is appended to a trace.
    - [errno] is a field of the state, holding the last value the
      controller assigned to it.  Logging ([ALOGE]) is left out. *)

From Stdlib Require Import ZArith String Ascii Lia.
From stdpp Require Import base list strings pretty.

Open Scope Z_scope.

(** ** Machine integers *)

Definition INT_MAX : Z := 2147483647.
Definition INT_MIN : Z := -2147483648.

(** The value an [int] holds after an arithmetic result [z]. *)
Definition wrap_int (z : Z) : Z := (z + 2147483648) mod 4294967296 - 2147483648.

(** ** C strings *)

(** [strncmp(s1, s2, n) == 0]: the first [n] characters agree, the
    terminator counting as a character and ending the comparison. *)
Fixpoint strncmp_eq (s1 s2 : string) (n : nat) : bool :=
  match n with
  | O => true
  | S n' =>
      match s1, s2 with
      | EmptyString, EmptyString => true
      | String c1 r1, String c2 r2 => Ascii.eqb c1 c2 && strncmp_eq r1 r2 n'
      | _, _ => false
      end
  end.

(** The C string left in [dst] by [strncpy(dst, src, n); dst[n] = 0]. *)
Fixpoint strncpy (src : string) (n : nat) : string :=
  match n, src with
  | S n', String c r => String c (strncpy r n')
  | _, _ => EmptyString
  end.

(** [snprintf(buf, size, ...)] keeps at most [size - 1] characters of the
    formatted text. *)
Definition snprintf (size : nat) (formatted : string) : string :=
  strncpy formatted (size - 1).

(** [strchr(s, c) != NULL]. *)
Fixpoint strchr (s : string) (c : ascii) : bool :=
  match s with
  | EmptyString => false
  | String d r => Ascii.eqb d c || strchr r c
  end.

(** ** Arrays indexed by an [int]

    Outside the array C++ gives the access no meaning; the model reads
    nothing and stores nothing there. *)

Definition elem {A : Type} (a : list A) (i : Z) : option A :=
  if i <? 0 then None else a !! Z.to_nat i.

Definition store {A : Type} (a : list A) (i : Z) (x : A) : list A :=
  if i <? 0 then a else <[Z.to_nat i := x]> a.

(** ** Constants of the headers *)

(** [IFNAMSIZ] of the kernel header <net/if.h>: the length limit of an
    interface name, terminator included. *)
Definition IFNAMSIZ : nat := 16.

(** Modelled from the spec: NetdConstants declares [ADD] and [DEL]; the
    route command is [ip route <add|del> ...]. *)
Definition ADD : string := "add".
Definition DEL : string := "del".

(** The constants of SecondaryTableController.h and NetdConstants.h that the
    source only names. *)
Class Config := {
  INTERFACES_TRACKED : nat;
  BASE_TABLE_NUMBER : Z;
  IP_PATH : string
}.

Inductive IptablesTarget := V4 | V6 | V4V6.
Inductive ResponseCode := OperationFailed | CommandOkay.
Inductive Errno := ENODEV | EINVAL.

(** ** The world outside the controller *)

Inductive Event :=
| Exec (argv : list string)
| Iptables (target : IptablesTarget) (args : list string)
| UidMarkMapAdd (uid_start uid_end mark : Z)
| UidMarkMapRemove (uid_start uid_end mark : Z)
| SendMsg (code : ResponseCode) (msg : string) (addErrno : bool).

(** What the controller calls and cannot see into: each call returns its
    result and the next state of the world. *)
Class Externals (World : Type) := {
  android_fork_execvp : list string -> World -> Z * World;
  execIptables : IptablesTarget -> list string -> World -> Z * World;
  UidMarkMap_add : Z -> Z -> Z -> World -> bool * World;
  UidMarkMap_remove : Z -> Z -> Z -> World -> bool * World
}.

(** ** The controller's state *)

Record Pool := {
  mInterfaceTable : list string;
  mInterfaceRuleCount : list Z
}.

Record State (World : Type) := {
  pool : Pool;
  errno : option Errno;
  world : World;
  trace : list Event
}.
Arguments pool {World} _.
Arguments errno {World} _.
Arguments world {World} _.
Arguments trace {World} _.

(** The name held by row [i] and the count of slot [i]. *)
Definition name_at (p : Pool) (i : Z) : string :=
  default EmptyString (elem (mInterfaceTable p) i).

Definition count_at (p : Pool) (i : Z) : Z :=
  default 0 (elem (mInterfaceRuleCount p) i).

Definition set_name (i : Z) (name : string) (p : Pool) : Pool :=
  {| mInterfaceTable := store (mInterfaceTable p) i name;
     mInterfaceRuleCount := mInterfaceRuleCount p |}.

Definition set_count (i : Z) (n : Z) (p : Pool) : Pool :=
  {| mInterfaceTable := mInterfaceTable p;
     mInterfaceRuleCount := store (mInterfaceRuleCount p) i n |}.

(** [findTableNumber]'s loop over the rows of the array (there are
    [INTERFACES_TRACKED] of them), at row [i] with the rows from [i] on. *)
Fixpoint findTableNumber_from (iface : string) (rows : list string) (i : Z) : Z :=
  match rows with
  | [] => -1
  | name :: rest =>
      if strncmp_eq iface name (IFNAMSIZ + 1) then i
      else findTableNumber_from iface rest (i + 1)
  end.

Definition findTableNumber (p : Pool) (iface : string) : Z :=
  findTableNumber_from iface (mInterfaceTable p) 0.

Definition modifyRuleCount (tableIndex : Z) (action : string) (p : Pool) : Pool :=
  if String.eqb action ADD then
    set_count tableIndex (wrap_int (count_at p tableIndex + 1)) p
  else
    let n := wrap_int (count_at p tableIndex - 1) in
    if n <? 1 then set_name tableIndex EmptyString (set_count tableIndex 0 p)
    else set_count tableIndex n p.

Definition getVersion (addr : string) : string :=
  if strchr addr ":"%char then "-6" else "-4".

Section Controller.
Context `{Config} `{Externals World}.

Definition with_pool (p : Pool) (s : State World) : State World :=
  {| pool := p; errno := errno s; world := world s; trace := trace s |}.

Definition set_errno (e : Errno) (s : State World) : State World :=
  {| pool := pool s; errno := Some e; world := world s; trace := trace s |}.

Definition sendMsg (code : ResponseCode) (msg : string) (addErrno : bool)
    (s : State World) : State World :=
  {| pool := pool s; errno := errno s; world := world s;
     trace := trace s ++ [SendMsg code msg addErrno] |}.

(** The constructor: every row empty, every count zero. *)
Definition SecondaryTableController (w : World) : State World :=
  {| pool := {| mInterfaceTable := replicate INTERFACES_TRACKED EmptyString;
                mInterfaceRuleCount := replicate INTERFACES_TRACKED 0 |};
     errno := None; world := w; trace := [] |}.

Definition verifyTableIndex (p : Pool) (tableIndex : Z) : Z :=
  if (tableIndex <? 0)
     || (tableIndex >=? Z.of_nat INTERFACES_TRACKED)
     || String.eqb (name_at p tableIndex) EmptyString
  then -1 else 0.

Definition runCmd (argv : list string) (s : State World) : Z * State World :=
  let '(ret, w) := android_fork_execvp argv (world s) in
  (ret, {| pool := pool s; errno := errno s; world := w;
           trace := trace s ++ [Exec argv] |}).

Definition runIptables (target : IptablesTarget) (args : list string)
    (s : State World) : Z * State World :=
  let '(ret, w) := execIptables target args (world s) in
  (ret, {| pool := pool s; errno := errno s; world := w;
           trace := trace s ++ [Iptables target args] |}).

Definition mUidMarkMap_add (uid_start uid_end mark : Z) (s : State World)
    : bool * State World :=
  let '(ok, w) := UidMarkMap_add uid_start uid_end mark (world s) in
  (ok, {| pool := pool s; errno := errno s; world := w;
          trace := trace s ++ [UidMarkMapAdd uid_start uid_end mark] |}).

Definition mUidMarkMap_remove (uid_start uid_end mark : Z) (s : State World)
    : bool * State World :=
  let '(ok, w) := UidMarkMap_remove uid_start uid_end mark (world s) in
  (ok, {| pool := pool s; errno := errno s; world := w;
          trace := trace s ++ [UidMarkMapRemove uid_start uid_end mark] |}).

(** The table number printed into [tableIndex_str]. *)
Definition tableIndex_str (tableIndex : Z) : string :=
  snprintf 11 (pretty (wrap_int (tableIndex + BASE_TABLE_NUMBER))).

Definition modifyRoute (action iface dest : string) (prefix : Z)
    (gateway : string) (tableIndex : Z) (s : State World) : Z * State World :=
  let dest_str := snprintf 44 (dest +:+ "/" +:+ pretty prefix) in
  let '(ret, s) :=
    if String.eqb "::" gateway then
      runCmd [IP_PATH; "route"; action; dest_str; "dev"; iface; "table";
              tableIndex_str tableIndex] s
    else
      runCmd [IP_PATH; "route"; action; dest_str; "via"; gateway; "dev"; iface;
              "table"; tableIndex_str tableIndex] s in
  if negb (ret =? 0) then
    (-1, sendMsg OperationFailed "ip route modification failed" true
           (set_errno ENODEV s))
  else
    let p := pool s in
    let p :=
      if String.eqb action ADD then
        set_count tableIndex (wrap_int (count_at p tableIndex + 1)) p
      else
        let n := wrap_int (count_at p tableIndex - 1) in
        if n <? 1 then set_name tableIndex EmptyString (set_count tableIndex 0 p)
        else set_count tableIndex n p in
    let p := modifyRuleCount tableIndex action p in
    (0, sendMsg CommandOkay "Route modified" false (with_pool p s)).

Definition addRoute (iface dest : string) (prefix : Z) (gateway : string)
    (s : State World) : Z * State World :=
  let tableIndex := findTableNumber (pool s) iface in
  if tableIndex =? -1 then
    let tableIndex := findTableNumber (pool s) EmptyString in
    if tableIndex =? -1 then
      (-1, sendMsg OperationFailed "Max number NATed" true (set_errno ENODEV s))
    else
      let s := with_pool (set_name tableIndex (strncpy iface IFNAMSIZ) (pool s)) s in
      modifyRoute ADD iface dest prefix gateway tableIndex s
  else
    modifyRoute ADD iface dest prefix gateway tableIndex s.

Definition removeRoute (iface dest : string) (prefix : Z) (gateway : string)
    (s : State World) : Z * State World :=
  let tableIndex := findTableNumber (pool s) iface in
  if tableIndex =? -1 then
    (-1, sendMsg OperationFailed "Interface not found" true (set_errno ENODEV s))
  else
    modifyRoute DEL iface dest prefix gateway tableIndex s.

Definition modifyFromRule (tableIndex : Z) (action addr : string)
    (s : State World) : Z * State World :=
  if negb (verifyTableIndex (pool s) tableIndex =? 0) then (-1, s)
  else
    let '(ret, s) :=
      runCmd [IP_PATH; getVersion addr; "rule"; action; "from"; addr; "table";
              tableIndex_str tableIndex] s in
    if negb (ret =? 0) then (-1, s)
    else (0, with_pool (modifyRuleCount tableIndex action (pool s)) s).

Definition modifyLocalRoute (tableIndex : Z) (action iface addr : string)
    (s : State World) : Z * State World :=
  if negb (verifyTableIndex (pool s) tableIndex =? 0) then (-1, s)
  else
    let s := with_pool (modifyRuleCount tableIndex action (pool s)) s in
    runCmd [IP_PATH; "route"; action; addr; "dev"; iface; "table";
            tableIndex_str tableIndex] s.

(** The body of [setFwmarkRule] once [tableIndex] is settled: the fwmark
    rule, then the NAT rule (IPv4 only). *)
Definition setFwmarkRule_commands (iface : string) (add : bool) (tableIndex : Z)
    (s : State World) : Z * State World :=
  let '(ret, s) :=
    runCmd [IP_PATH; "rule"; if add then "add" else "del"; "fwmark";
            tableIndex_str tableIndex; "table"; tableIndex_str tableIndex] s in
  if negb (ret =? 0) then (ret, s)
  else
    runIptables V4
      ["-t"; "nat"; if add then "-A" else "-D"; "st_nat_POSTROUTING"; "-o"; iface;
       "-m"; "mark"; "--mark"; tableIndex_str tableIndex; "-j"; "MASQUERADE"] s.

Definition setFwmarkRule (iface : string) (add : bool) (s : State World)
    : Z * State World :=
  let tableIndex := findTableNumber (pool s) iface in
  if tableIndex =? -1 then
    let tableIndex := findTableNumber (pool s) EmptyString in
    if tableIndex =? -1 then (-1, set_errno ENODEV s)
    else
      let s := with_pool (set_name tableIndex (strncpy iface IFNAMSIZ) (pool s)) s in
      setFwmarkRule_commands iface add tableIndex s
  else
    setFwmarkRule_commands iface add tableIndex s.

Definition addFwmarkRule (iface : string) := setFwmarkRule iface true.
Definition removeFwmarkRule (iface : string) := setFwmarkRule iface false.

Definition setUidRule (iface : string) (uid_start uid_end : Z) (add : bool)
    (s : State World) : Z * State World :=
  let tableIndex := findTableNumber (pool s) iface in
  if tableIndex =? -1 then (-1, set_errno EINVAL s)
  else
    let mark := wrap_int (tableIndex + BASE_TABLE_NUMBER) in
    let '(ok, s) :=
      if add then mUidMarkMap_add uid_start uid_end mark s
      else mUidMarkMap_remove uid_start uid_end mark s in
    if negb ok then (-1, set_errno EINVAL s)
    else
      let mark_str := snprintf 11 (pretty mark) in
      let uid_str := snprintf 24 (pretty uid_start +:+ "-" +:+ pretty uid_end) in
      runIptables V4V6
        ["-t"; "mangle"; if add then "-A" else "-D"; "st_mangle_OUTPUT"; "-m";
         "owner"; "--uid-owner"; uid_str; "-j"; "MARK"; "--set-mark"; mark_str] s.

Definition addUidRule (iface : string) (uid_start uid_end : Z) :=
  setUidRule iface uid_start uid_end true.
Definition removeUidRule (iface : string) (uid_start uid_end : Z) :=
  setUidRule iface uid_start uid_end false.

(** The public operations, as one request each. *)
Inductive Operation :=
| OpAddRoute (iface dest : string) (prefix : Z) (gateway : string)
| OpRemoveRoute (iface dest : string) (prefix : Z) (gateway : string)
| OpModifyFromRule (tableIndex : Z) (action addr : string)
| OpModifyLocalRoute (tableIndex : Z) (action iface addr : string)
| OpSetFwmarkRule (iface : string) (add : bool)
| OpSetUidRule (iface : string) (uid_start uid_end : Z) (add : bool).

Definition perform (o : Operation) (s : State World) : Z * State World :=
  match o with
  | OpAddRoute iface dest prefix gateway => addRoute iface dest prefix gateway s
  | OpRemoveRoute iface dest prefix gateway => removeRoute iface dest prefix gateway s
  | OpModifyFromRule tableIndex action addr => modifyFromRule tableIndex action addr s
  | OpModifyLocalRoute tableIndex action iface addr =>
      modifyLocalRoute tableIndex action iface addr s
  | OpSetFwmarkRule iface add => setFwmarkRule iface add s
  | OpSetUidRule iface uid_start uid_end add => setUidRule iface uid_start uid_end add s
  end.

(** A run of requests, each on the state the one before left. *)
Definition run (ops : list Operation) (s : State World) : State World :=
  foldl (fun s o => (perform o s).2) s ops.

End Controller.

(** ** Properties of a pool *)

(** The arrays are what their declarations say: [INTERFACES_TRACKED] rows of
    [IFNAMSIZ + 1] characters, each holding a C string, and as many counts,
    each an [int]. *)
Definition Pool_wf `{Config} (p : Pool) : Prop :=
  length (mInterfaceTable p) = INTERFACES_TRACKED
  /\ length (mInterfaceRuleCount p) = INTERFACES_TRACKED
  /\ Forall (fun name => (String.length name <= IFNAMSIZ)%nat) (mInterfaceTable p)
  /\ Forall (fun n => INT_MIN <= n <= INT_MAX) (mInterfaceRuleCount p).

(** The invariant of the specification: a slot has no name exactly when
    nothing refers to it. *)
Definition unoccupied_iff_unreferenced (p : Pool) : Prop :=
  Forall2 (fun name n => name = EmptyString <-> n = 0)
    (mInterfaceTable p) (mInterfaceRuleCount p).

(** Its half that the controller keeps: a slot without a name has count 0. *)
Definition unoccupied_unreferenced (p : Pool) : Prop :=
  Forall2 (fun name n => name = EmptyString -> n = 0)
    (mInterfaceTable p) (mInterfaceRuleCount p).

(** Every slot is occupied. *)
Definition pool_full (p : Pool) : Prop :=
  Forall (fun name => name <> EmptyString) (mInterfaceTable p).

(** [addRoute] is given the name of an interface, not the empty string. *)
Definition names_an_interface (o : Operation) : Prop :=
  match o with
  | OpAddRoute iface _ _ _ => iface <> EmptyString
  | _ => True
  end.

(** The interface name an allocating operation is given fits a row. *)
Definition names_fit (o : Operation) : Prop :=
  match o with
  | OpAddRoute iface _ _ _ | OpSetFwmarkRule iface _ =>
      (String.length iface <= IFNAMSIZ)%nat
  | _ => True
  end.

(** Every count lies between 0 and [bound]. *)
Definition counts_within (bound : Z) (p : Pool) : Prop :=
  0 <= bound /\ Forall (fun n => 0 <= n <= bound) (mInterfaceRuleCount p).

(** A run of rule-count updates on one slot. *)
Definition modifyRuleCount_run (tableIndex : Z) (actions : list string) (p : Pool)
    : Pool :=
  foldl (fun p action => modifyRuleCount tableIndex action p) p actions.

(** The slot a request is about: the one its interface is found at (or, for
    an allocating request, the free one it would take), or the index it
    names. *)
Definition addressed_slot (o : Operation) (p : Pool) : Z :=
  match o with
  | OpAddRoute iface _ _ _ | OpSetFwmarkRule iface _ =>
      if findTableNumber p iface =? -1 then findTableNumber p EmptyString
      else findTableNumber p iface
  | OpRemoveRoute iface _ _ _ | OpSetUidRule iface _ _ _ => findTableNumber p iface
  | OpModifyFromRule tableIndex _ _ | OpModifyLocalRoute tableIndex _ _ _ => tableIndex
  end.

(** No two slots hold the same name, the empty name apart. *)
Definition distinct_names (p : Pool) : Prop :=
  forall (i j : nat) (name : string),
    mInterfaceTable p !! i = Some name -> mInterfaceTable p !! j = Some name ->
    name <> EmptyString -> i = j.

(** The replies to the client among some events. *)
Definition is_reply (e : Event) : bool :=
  match e with
  | SendMsg _ _ _ => true
  | _ => false
  end.

Definition replies (events : list Event) : list Event := List.filter is_reply events.

(** A call that started in [s] and ended in [r] sent the client exactly
    one reply: success with result 0, or failure, carrying [errno] set to
    [ENODEV], with result -1. *)
Definition answered_once {World : Type} (s : State World) (r : Z * State World)
    : Prop :=
  exists (events : list Event) (reply : Event),
    trace r.2 = trace s ++ events
    /\ replies events = [reply]
    /\ ((r.1 = 0 /\ exists msg, reply = SendMsg CommandOkay msg false)
        \/ (r.1 = -1 /\ errno r.2 = Some ENODEV
            /\ exists msg, reply = SendMsg OperationFailed msg true)).

(** ** A scripted world, for running the controller

    The world is the list of results still to come: every external call
    takes the next one (an exit status; the UID mark map succeeds on 0), and
    succeeds once the list is used up. *)

Definition next_result (w : list Z) : Z * list Z :=
  match w with
  | [] => (0, [])
  | r :: rest => (r, rest)
  end.

Definition scripted : Externals (list Z) :=
  {| android_fork_execvp := fun _ w => next_result w;
     execIptables := fun _ _ w => next_result w;
     UidMarkMap_add := fun _ _ _ w => let '(r, w) := next_result w in (r =? 0, w);
     UidMarkMap_remove := fun _ _ _ w => let '(r, w) := next_result w in (r =? 0, w) |}.

(** The scenario of the specification: two tables, numbered from 100. *)
Definition scenario : Config :=
  {| INTERFACES_TRACKED := 2; BASE_TABLE_NUMBER := 100; IP_PATH := "/system/bin/ip" |}.

(** A controller of the scenario with the given arrays, in a world that
    will answer [w]. *)
Definition scenario_state (names : list string) (counts : list Z) (w : list Z)
    : State (list Z) :=
  {| pool := {| mInterfaceTable := names; mInterfaceRuleCount := counts |};
     errno := None; world := w; trace := [] |}.

(** The controller of the scenario as constructed. *)
Definition fresh (w : list Z) : State (list Z) :=
  @SecondaryTableController scenario (list Z) w.

(** Well-formedness of an explicit pool, row by row. *)
Ltac solve_Pool_wf :=
  unfold Pool_wf; cbn [pool scenario_state mInterfaceTable mInterfaceRuleCount];
  repeat split;
  repeat first [apply Forall_nil_2 | apply Forall_cons_2];
  try reflexivity; unfold INT_MIN, INT_MAX, IFNAMSIZ; cbn; lia.

(** Distinctness of the names of an explicit pool of two rows. *)
Ltac solve_distinct_names :=
  let i := fresh "i" in
  let j := fresh "j" in
  intros i j ? ? ? ?;
  destruct i as [|[|i]]; destruct j as [|[|j]]; cbn in *;
  try reflexivity; try congruence; try discriminate.

(** * Proofs *)

(** ** Integers, strings and arrays *)

Lemma wrap_int_id (z : Z) : INT_MIN <= z <= INT_MAX -> wrap_int z = z.
Proof.
  unfold INT_MIN, INT_MAX, wrap_int. intros Hz.
  rewrite Z.mod_small; lia.
Qed.

Lemma wrap_int_range (z : Z) : INT_MIN <= wrap_int z <= INT_MAX.
Proof.
  unfold INT_MIN, INT_MAX, wrap_int.
  pose proof (Z.mod_pos_bound (z + 2147483648) 4294967296 eq_refl). lia.
Qed.

Lemma strncmp_eq_refl (s : string) (n : nat) : strncmp_eq s s n = true.
Proof.
  revert s. induction n as [|n IH]; intros [|c r]; simpl; try reflexivity.
  rewrite Ascii.eqb_refl. apply IH.
Qed.

(** A comparison that reaches the terminator of [s2] decides equality. *)
Lemma strncmp_eq_sound (s1 s2 : string) (n : nat) :
  strncmp_eq s1 s2 (S n) = true -> (String.length s2 <= n)%nat -> s1 = s2.
Proof.
  revert s1 s2. induction n as [|n IH]; intros [|c1 r1] [|c2 r2]; simpl;
    try discriminate; try reflexivity; intros Hcmp Hlen.
  - lia.
  - apply andb_prop in Hcmp as [Hc Hr]. apply Ascii.eqb_eq in Hc. subst c2.
    f_equal. apply IH; [exact Hr | lia].
Qed.

Lemma strncmp_eq_empty_l (name : string) (n : nat) :
  strncmp_eq EmptyString name (S n) = true <-> name = EmptyString.
Proof. destruct name; simpl; split; intros; try discriminate; reflexivity. Qed.

Lemma strncmp_eq_empty_r (iface : string) (n : nat) :
  strncmp_eq iface EmptyString (S n) = true <-> iface = EmptyString.
Proof. destruct iface; simpl; split; intros; try discriminate; reflexivity. Qed.

Lemma strncpy_length (s : string) (n : nat) : (String.length (strncpy s n) <= n)%nat.
Proof.
  revert s. induction n as [|n IH]; intros [|c r]; simpl; try lia.
  specialize (IH r). lia.
Qed.

Lemma strncpy_fits (s : string) (n : nat) :
  (String.length s <= n)%nat -> strncpy s n = s.
Proof.
  revert s. induction n as [|n IH]; intros [|c r]; simpl; intros Hlen;
    try reflexivity; try lia.
  f_equal. apply IH. lia.
Qed.

Lemma strncpy_nonempty (s : string) (n : nat) :
  s <> EmptyString -> strncpy s (S n) <> EmptyString.
Proof. destruct s; simpl; [congruence | discriminate]. Qed.

Section Arrays.
Context {A : Type}.
Implicit Types (a : list A) (i j : Z) (x : A).

Lemma length_store a i x : length (store a i x) = length a.
Proof. unfold store. destruct (i <? 0); [reflexivity | apply length_insert]. Qed.

Lemma elem_Some a i x :
  elem a i = Some x <-> 0 <= i /\ a !! Z.to_nat i = Some x.
Proof.
  unfold elem. destruct (Z.ltb_spec i 0); split.
  - discriminate.
  - intros [? _]. lia.
  - intros Hx. split; [lia | exact Hx].
  - intros [_ Hx]. exact Hx.
Qed.

Lemma elem_store_eq a i x :
  0 <= i -> (Z.to_nat i < length a)%nat -> elem (store a i x) i = Some x.
Proof.
  intros Hi Hlen. unfold elem, store.
  destruct (Z.ltb_spec i 0); [lia |]. by apply list_lookup_insert_eq.
Qed.

Lemma elem_store_ne a i j x : i <> j -> elem (store a i x) j = elem a j.
Proof.
  intros Hne. unfold elem, store.
  destruct (Z.ltb_spec j 0); [reflexivity |].
  destruct (Z.ltb_spec i 0); [reflexivity |].
  apply list_lookup_insert_ne. lia.
Qed.

Lemma elem_store_is_Some a i j x : is_Some (elem (store a i x) j) <-> is_Some (elem a j).
Proof.
  unfold elem. destruct (Z.ltb_spec j 0); [reflexivity |].
  rewrite !lookup_lt_is_Some, length_store. reflexivity.
Qed.

Lemma Forall_store (P : A -> Prop) a i x : Forall P a -> P x -> Forall P (store a i x).
Proof.
  intros Hall Hx. unfold store. destruct (i <? 0); [exact Hall |].
  by apply Forall_insert.
Qed.

Lemma store_store a i x y : store (store a i x) i y = store a i y.
Proof.
  unfold store. destruct (i <? 0); [reflexivity | apply list_insert_insert_eq].
Qed.

Lemma store_same a i x : elem a i = Some x -> store a i x = a.
Proof.
  intros Hel. apply elem_Some in Hel as [Hi Hlook]. unfold store.
  destruct (Z.ltb_spec i 0); [reflexivity | by apply list_insert_id].
Qed.

Lemma elem_store_same a i x y : elem (store a i x) i = Some y -> y = x.
Proof.
  intros Hel. apply elem_Some in Hel as [Hi Hlook]. unfold store in Hlook.
  destruct (Z.ltb_spec i 0); [lia |].
  pose proof (lookup_lt_Some _ _ _ Hlook) as Hlt. rewrite length_insert in Hlt.
  rewrite list_lookup_insert_eq in Hlook by exact Hlt. congruence.
Qed.

End Arrays.

(** A relation between two parallel arrays survives a store into either
    one, if it holds at the index stored to. *)
Lemma Forall2_store_r {A B : Type} (R : A -> B -> Prop) (l : list A) (k : list B)
    (i : Z) (y : B) :
  Forall2 R l k -> (forall x, elem l i = Some x -> R x y) -> Forall2 R l (store k i y).
Proof.
  intros Hall Hy. unfold store, elem in *.
  destruct (i <? 0); [exact Hall |].
  destruct (l !! Z.to_nat i) as [x|] eqn:Hlook.
  - rewrite <- (list_insert_id l (Z.to_nat i) x) by exact Hlook.
    apply Forall2_insert; auto.
  - apply lookup_ge_None in Hlook. rewrite (Forall2_length _ _ _ Hall) in Hlook.
    by rewrite list_insert_ge.
Qed.

Lemma Forall2_store_l {A B : Type} (R : A -> B -> Prop) (l : list A) (k : list B)
    (i : Z) (x : A) :
  Forall2 R l k -> (forall y, elem k i = Some y -> R x y) -> Forall2 R (store l i x) k.
Proof.
  intros Hall Hx. unfold store, elem in *.
  destruct (i <? 0); [exact Hall |].
  destruct (k !! Z.to_nat i) as [y|] eqn:Hlook.
  - rewrite <- (list_insert_id k (Z.to_nat i) y) by exact Hlook.
    apply Forall2_insert; auto.
  - apply lookup_ge_None in Hlook. rewrite <- (Forall2_length _ _ _ Hall) in Hlook.
    by rewrite list_insert_ge.
Qed.

(** ** Reading and writing the pool *)

Lemma name_at_set_count (i j n : Z) (p : Pool) :
  name_at (set_count i n p) j = name_at p j.
Proof. reflexivity. Qed.

Lemma count_at_set_name (i j : Z) (name : string) (p : Pool) :
  count_at (set_name i name p) j = count_at p j.
Proof. reflexivity. Qed.

Lemma count_at_set_count_ne (i j n : Z) (p : Pool) :
  i <> j -> count_at (set_count i n p) j = count_at p j.
Proof. intros Hne. unfold count_at, set_count; simpl. by rewrite elem_store_ne. Qed.

Lemma name_at_set_name_ne (i j : Z) (name : string) (p : Pool) :
  i <> j -> name_at (set_name i name p) j = name_at p j.
Proof. intros Hne. unfold name_at, set_name; simpl. by rewrite elem_store_ne. Qed.

Lemma count_at_set_count_eq (i n : Z) (p : Pool) :
  0 <= i -> (Z.to_nat i < length (mInterfaceRuleCount p))%nat ->
  count_at (set_count i n p) i = n.
Proof. intros Hi Hlen. unfold count_at, set_count; simpl. by rewrite elem_store_eq. Qed.

Lemma name_at_set_name_eq (i : Z) (name : string) (p : Pool) :
  0 <= i -> (Z.to_nat i < length (mInterfaceTable p))%nat ->
  name_at (set_name i name p) i = name.
Proof. intros Hi Hlen. unfold name_at, set_name; simpl. by rewrite elem_store_eq. Qed.

(** A count outside the array reads as 0, before and after any store. *)
Lemma count_at_outside (i : Z) (p : Pool) :
  ~ (0 <= i /\ (Z.to_nat i < length (mInterfaceRuleCount p))%nat) -> count_at p i = 0.
Proof.
  intros Hout. unfold count_at, elem.
  destruct (Z.ltb_spec i 0); [reflexivity |].
  rewrite lookup_ge_None_2; [reflexivity | lia].
Qed.

(** ** The scan of [findTableNumber] *)

Lemma findTableNumber_from_range (iface : string) (rows : list string) (i : Z) :
  findTableNumber_from iface rows i = -1
  \/ i <= findTableNumber_from iface rows i < i + Z.of_nat (length rows).
Proof.
  revert i. induction rows as [|name rest IH]; intros i;
    cbn [findTableNumber_from length]; [by left |].
  destruct (strncmp_eq iface name (IFNAMSIZ + 1)); [right; lia |].
  destruct (IH (i + 1)) as [-> | Hr]; [by left | right; lia].
Qed.

Lemma findTableNumber_from_none (iface : string) (rows : list string) (i : Z) :
  0 <= i ->
  findTableNumber_from iface rows i = -1 <->
  Forall (fun name => strncmp_eq iface name (IFNAMSIZ + 1) = false) rows.
Proof.
  revert i. induction rows as [|name rest IH]; intros i Hi;
    cbn [findTableNumber_from].
  - split; [constructor | reflexivity].
  - destruct (strncmp_eq iface name (IFNAMSIZ + 1)) eqn:Hcmp.
    + split; [lia | intros Hall; inversion Hall; congruence].
    + rewrite IH by lia. split; [by constructor | intros Hall; by inversion Hall].
Qed.

Lemma findTableNumber_from_found (iface : string) (rows : list string) (i r : Z) :
  0 <= i -> findTableNumber_from iface rows i = r -> r <> -1 ->
  exists name,
    rows !! Z.to_nat (r - i) = Some name
    /\ strncmp_eq iface name (IFNAMSIZ + 1) = true
    /\ forall k name', (k < Z.to_nat (r - i))%nat -> rows !! k = Some name' ->
         strncmp_eq iface name' (IFNAMSIZ + 1) = false.
Proof.
  revert i. induction rows as [|name rest IH]; intros i Hi;
    cbn [findTableNumber_from].
  - intros <- Hne. congruence.
  - destruct (strncmp_eq iface name (IFNAMSIZ + 1)) eqn:Hcmp.
    + intros <- _. exists name. replace (i - i) with 0 by lia.
      split; [reflexivity |]. split; [exact Hcmp |]. intros k name' Hk.
      change (Z.to_nat 0) with O in Hk. lia.
    + intros Hr Hne.
      destruct (findTableNumber_from_range iface rest (i + 1)) as [Hnone | Hrange];
        rewrite Hr in *; [congruence |].
      destruct (IH (i + 1)) as (name0 & Hlook & Hm & Hmin); [lia | exact Hr | exact Hne |].
      exists name0.
      replace (Z.to_nat (r - i)) with (S (Z.to_nat (r - (i + 1)))) by lia.
      split; [exact Hlook |]. split; [exact Hm |].
      intros [|k] name' Hk Hlook'; cbn in Hlook'.
      * congruence.
      * apply (Hmin k name'); [lia | exact Hlook'].
Qed.

Lemma name_at_lookup (p : Pool) (i : Z) (name : string) :
  0 <= i -> mInterfaceTable p !! Z.to_nat i = Some name -> name_at p i = name.
Proof.
  intros Hi Hlook. unfold name_at.
  replace (elem (mInterfaceTable p) i) with (Some name); [reflexivity |].
  symmetry. apply elem_Some. by split.
Qed.

Lemma findTableNumber_range (p : Pool) (iface : string) :
  findTableNumber p iface = -1
  \/ 0 <= findTableNumber p iface < Z.of_nat (length (mInterfaceTable p)).
Proof. apply (findTableNumber_from_range iface (mInterfaceTable p) 0). Qed.

(** What the scan returns, in the scan's own terms: no row compares equal,
    or the first row that does. *)
Lemma findTableNumber_scan (p : Pool) (iface : string) :
  (findTableNumber p iface = -1
   /\ Forall (fun name => strncmp_eq iface name (IFNAMSIZ + 1) = false)
        (mInterfaceTable p))
  \/ (0 <= findTableNumber p iface < Z.of_nat (length (mInterfaceTable p))
      /\ strncmp_eq iface (name_at p (findTableNumber p iface)) (IFNAMSIZ + 1) = true
      /\ forall j, 0 <= j < findTableNumber p iface ->
           strncmp_eq iface (name_at p j) (IFNAMSIZ + 1) = false).
Proof.
  destruct (Z.eq_dec (findTableNumber p iface) (-1)) as [Hr | Hr].
  - left. split; [exact Hr |].
    apply (findTableNumber_from_none iface (mInterfaceTable p) 0); [lia | exact Hr].
  - right.
    destruct (findTableNumber_range p iface) as [? | Hrange]; [congruence |].
    split; [exact Hrange |].
    destruct (findTableNumber_from_found iface (mInterfaceTable p) 0
                (findTableNumber p iface)) as (name & Hlook & Hm & Hmin);
      [lia | reflexivity | exact Hr |].
    rewrite Z.sub_0_r in Hlook, Hmin.
    split.
    + rewrite (name_at_lookup p _ name); [exact Hm | lia | exact Hlook].
    + intros j Hj.
      destruct (lookup_lt_is_Some_2 (mInterfaceTable p) (Z.to_nat j)) as [name' Hlook'];
        [lia |].
      rewrite (name_at_lookup p j name'); [| lia | exact Hlook'].
      apply (Hmin (Z.to_nat j)); [lia | exact Hlook'].
Qed.

Lemma Pool_wf_name_at `{Config} (p : Pool) (i : Z) :
  Pool_wf p -> (String.length (name_at p i) <= IFNAMSIZ)%nat.
Proof.
  intros (_ & _ & Hfit & _). unfold name_at.
  destruct (elem (mInterfaceTable p) i) as [name|] eqn:Hel; simpl; [| lia].
  apply elem_Some in Hel as [_ Hlook].
  rewrite Forall_forall in Hfit. apply Hfit.
  apply list_elem_of_lookup. eauto.
Qed.

Lemma name_at_Forall (P : string -> Prop) (p : Pool) (i : Z) :
  Forall P (mInterfaceTable p) ->
  0 <= i < Z.of_nat (length (mInterfaceTable p)) -> P (name_at p i).
Proof.
  intros Hall Hi.
  destruct (lookup_lt_is_Some_2 (mInterfaceTable p) (Z.to_nat i)) as [name Hlook];
    [lia |].
  rewrite (name_at_lookup p i name); [| lia | exact Hlook].
  rewrite Forall_forall in Hall. apply Hall.
  apply list_elem_of_lookup. eauto.
Qed.

(** With rows of the declared width, the scan decides equality of names. *)
Lemma findTableNumber_least `{Config} (p : Pool) (iface : string) :
  Pool_wf p ->
  (findTableNumber p iface = -1
   /\ forall i, 0 <= i < Z.of_nat INTERFACES_TRACKED -> name_at p i <> iface)
  \/ (0 <= findTableNumber p iface < Z.of_nat INTERFACES_TRACKED
      /\ name_at p (findTableNumber p iface) = iface
      /\ forall j, 0 <= j < findTableNumber p iface -> name_at p j <> iface).
Proof.
  intros Hwf. pose proof Hwf as (Hlen & _).
  destruct (findTableNumber_scan p iface) as [[Hr Hall] | (Hrange & Hm & Hmin)].
  - left. split; [exact Hr |]. intros i Hi Heq.
    pose proof (name_at_Forall _ p i Hall) as Hcmp. cbv beta in Hcmp.
    rewrite Heq, strncmp_eq_refl in Hcmp.
    assert (true = false) by (apply Hcmp; lia). discriminate.
  - right. rewrite Hlen in Hrange. split; [exact Hrange |]. split.
    + symmetry. rewrite Nat.add_1_r in Hm.
      apply (strncmp_eq_sound _ _ _ Hm). by apply Pool_wf_name_at.
    + intros j Hj Heq. specialize (Hmin j Hj).
      rewrite Heq, strncmp_eq_refl in Hmin. discriminate.
Qed.

(** ** The rule count of a slot *)

Lemma length_counts_modifyRuleCount (i : Z) (action : string) (p : Pool) :
  length (mInterfaceRuleCount (modifyRuleCount i action p))
  = length (mInterfaceRuleCount p).
Proof.
  unfold modifyRuleCount.
  destruct (String.eqb action ADD); [apply length_store |].
  destruct (wrap_int (count_at p i - 1) <? 1); cbn; apply length_store.
Qed.

Lemma length_table_modifyRuleCount (i : Z) (action : string) (p : Pool) :
  length (mInterfaceTable (modifyRuleCount i action p)) = length (mInterfaceTable p).
Proof.
  unfold modifyRuleCount.
  destruct (String.eqb action ADD); [reflexivity |].
  destruct (wrap_int (count_at p i - 1) <? 1); cbn; [apply length_store | reflexivity].
Qed.

(** The count after one update, as the source computes it. *)
Lemma count_at_modifyRuleCount (i : Z) (action : string) (p : Pool) :
  0 <= i -> (Z.to_nat i < length (mInterfaceRuleCount p))%nat ->
  count_at (modifyRuleCount i action p) i =
    if String.eqb action ADD then wrap_int (count_at p i + 1)
    else if wrap_int (count_at p i - 1) <? 1 then 0
         else wrap_int (count_at p i - 1).
Proof.
  intros Hi Hlen. unfold modifyRuleCount.
  destruct (String.eqb action ADD); [by apply count_at_set_count_eq |].
  destruct (wrap_int (count_at p i - 1) <? 1).
  - rewrite count_at_set_name. by apply count_at_set_count_eq.
  - by apply count_at_set_count_eq.
Qed.

(** The other slots keep their counts. *)
Lemma count_at_modifyRuleCount_ne (i j : Z) (action : string) (p : Pool) :
  i <> j -> count_at (modifyRuleCount i action p) j = count_at p j.
Proof.
  intros Hne. unfold modifyRuleCount.
  destruct (String.eqb action ADD); [by apply count_at_set_count_ne |].
  destruct (wrap_int (count_at p i - 1) <? 1).
  - rewrite count_at_set_name. by apply count_at_set_count_ne.
  - by apply count_at_set_count_ne.
Qed.

(** A removal that leaves less than one rule clears the name. *)
Lemma name_at_modifyRuleCount_released (i : Z) (action : string) (p : Pool) :
  0 <= i -> (Z.to_nat i < length (mInterfaceTable p))%nat ->
  String.eqb action ADD = false -> wrap_int (count_at p i - 1) < 1 ->
  name_at (modifyRuleCount i action p) i = EmptyString.
Proof.
  intros Hi Hlen Hact Hn. unfold modifyRuleCount. rewrite Hact.
  destruct (Z.ltb_spec (wrap_int (count_at p i - 1)) 1); [| lia].
  by apply name_at_set_name_eq.
Qed.

(** Any other update keeps every name. *)
Lemma table_modifyRuleCount_kept (i : Z) (action : string) (p : Pool) :
  String.eqb action ADD = true \/ 1 <= wrap_int (count_at p i - 1) ->
  mInterfaceTable (modifyRuleCount i action p) = mInterfaceTable p.
Proof.
  intros Hkeep. unfold modifyRuleCount.
  destruct (String.eqb action ADD); [reflexivity |].
  destruct (Z.ltb_spec (wrap_int (count_at p i - 1)) 1); [| reflexivity].
  destruct Hkeep; [discriminate | lia].
Qed.

(** One update moves a count within [0, bound] by at most one and never
    below zero. *)
Lemma count_at_modifyRuleCount_bounds (i : Z) (action : string) (p : Pool) (bound : Z) :
  0 <= count_at p i <= bound -> bound < INT_MAX ->
  0 <= count_at (modifyRuleCount i action p) i <= bound + 1.
Proof.
  intros Hc Hbound.
  destruct (decide (0 <= i /\ (Z.to_nat i < length (mInterfaceRuleCount p))%nat))
    as [[Hi Hlen] | Hout].
  - rewrite count_at_modifyRuleCount by assumption.
    unfold INT_MAX in Hbound.
    destruct (String.eqb action ADD).
    + rewrite wrap_int_id; [lia | unfold INT_MIN, INT_MAX; lia].
    + rewrite wrap_int_id by (unfold INT_MIN, INT_MAX; lia).
      destruct (Z.ltb_spec (count_at p i - 1) 1); lia.
  - rewrite count_at_outside; [lia |].
    by rewrite length_counts_modifyRuleCount.
Qed.

Lemma modifyRuleCount_run_bounds (i : Z) (actions : list string) (p : Pool) (bound : Z) :
  0 <= count_at p i <= bound -> bound + Z.of_nat (length actions) <= INT_MAX ->
  0 <= count_at (modifyRuleCount_run i actions p) i <= bound + Z.of_nat (length actions).
Proof.
  revert p bound. unfold modifyRuleCount_run.
  induction actions as [|action actions IH]; intros p bound Hc Hbound;
    cbn [foldl length] in *; [lia |].
  replace (bound + Z.of_nat (S (length actions)))
    with ((bound + 1) + Z.of_nat (length actions)) by lia.
  apply IH; [| lia].
  apply count_at_modifyRuleCount_bounds; [exact Hc | lia].
Qed.

(** C4: along every run of rule-count updates on a slot, after each of its
    steps, the count is at or above zero (the run being short enough for
    the additions to stay within an [int]); a removal from a count of 0 or
    1 leaves the count 0 and clears the name of the slot, so a removal too
    many is absorbed. *)
Theorem ruleCount_never_negative (p : Pool) (tableIndex : Z) (actions : list string) :
  0 <= count_at p tableIndex ->
  count_at p tableIndex + Z.of_nat (length actions) <= INT_MAX ->
  (forall k : nat,
     0 <= count_at (modifyRuleCount_run tableIndex (take k actions) p) tableIndex)
  /\ forall action,
       action <> ADD -> count_at p tableIndex <= 1 ->
       count_at (modifyRuleCount tableIndex action p) tableIndex = 0
       /\ (0 <= tableIndex < Z.of_nat (length (mInterfaceTable p)) ->
           name_at (modifyRuleCount tableIndex action p) tableIndex = EmptyString).
Proof.
  intros Hc Hbound. split.
  - intros k.
    apply (modifyRuleCount_run_bounds tableIndex (take k actions) p
             (count_at p tableIndex)); [lia |].
    rewrite length_take. lia.
  - intros action Hact Hle. apply String.eqb_neq in Hact.
    assert (Hn : wrap_int (count_at p tableIndex - 1) < 1).
    { rewrite wrap_int_id; [lia | unfold INT_MIN, INT_MAX in *; lia]. }
    split.
    + destruct (decide (0 <= tableIndex
                        /\ (Z.to_nat tableIndex < length (mInterfaceRuleCount p))%nat))
        as [[Hi Hlen] | Hout].
      * rewrite count_at_modifyRuleCount, Hact by assumption.
        destruct (Z.ltb_spec (wrap_int (count_at p tableIndex - 1)) 1); [reflexivity | lia].
      * apply count_at_outside. by rewrite length_counts_modifyRuleCount.
    + intros Hi. apply name_at_modifyRuleCount_released; [lia | lia | exact Hact | exact Hn].
Qed.

(** ** The policy driver *)

Section Driver.
Context `{Config} `{Externals World}.
Implicit Types (s : State World) (p : Pool).


(** A full pool has no row for the empty name. *)
Lemma findTableNumber_full p :
  pool_full p -> findTableNumber p EmptyString = -1.
Proof.
  intros Hfull. apply (findTableNumber_from_none EmptyString (mInterfaceTable p) 0); [lia |].
  eapply Forall_impl; [exact Hfull |]. intros name Hname. cbv beta in *.
  rewrite Nat.add_1_r. destruct name; [congruence | reflexivity].
Qed.

(** The slot found for the empty name is in range and has no name. *)
Lemma findTableNumber_free p :
  findTableNumber p EmptyString <> -1 ->
  0 <= findTableNumber p EmptyString < Z.of_nat (length (mInterfaceTable p))
  /\ name_at p (findTableNumber p EmptyString) = EmptyString.
Proof.
  intros Hfree.
  destruct (findTableNumber_scan p EmptyString) as [[Hr _] | (Hrange & Hm & _)];
    [congruence |].
  split; [exact Hrange |]. rewrite Nat.add_1_r in Hm.
  by apply strncmp_eq_empty_l in Hm.
Qed.

(** The slot found for an interface has a name, unless the interface is the
    empty string. *)
Lemma findTableNumber_named p (iface : string) :
  iface <> EmptyString -> findTableNumber p iface <> -1 ->
  0 <= findTableNumber p iface < Z.of_nat (length (mInterfaceTable p))
  /\ name_at p (findTableNumber p iface) <> EmptyString.
Proof.
  intros Hiface Hfound.
  destruct (findTableNumber_scan p iface) as [[Hr _] | (Hrange & Hm & _)];
    [congruence |].
  split; [exact Hrange |]. intros Hempty. rewrite Hempty, Nat.add_1_r in Hm.
  by apply strncmp_eq_empty_r in Hm.
Qed.

Lemma runCmd_spec (argv : list string) s :
  (runCmd argv s).1 = (android_fork_execvp argv (world s)).1
  /\ pool (runCmd argv s).2 = pool s
  /\ errno (runCmd argv s).2 = errno s
  /\ world (runCmd argv s).2 = (android_fork_execvp argv (world s)).2
  /\ trace (runCmd argv s).2 = trace s ++ [Exec argv].
Proof. unfold runCmd. destruct (android_fork_execvp argv (world s)); cbn; auto. Qed.

Lemma runIptables_spec (target : IptablesTarget) (args : list string) s :
  (runIptables target args s).1 = (execIptables target args (world s)).1
  /\ pool (runIptables target args s).2 = pool s
  /\ errno (runIptables target args s).2 = errno s
  /\ world (runIptables target args s).2 = (execIptables target args (world s)).2
  /\ trace (runIptables target args s).2 = trace s ++ [Iptables target args].
Proof. unfold runIptables. destruct (execIptables target args (world s)); cbn; auto. Qed.

(** [modifyRoute] either fails and keeps the pool, or succeeds and has
    updated the rule count twice: once in its own body, once through
    [modifyRuleCount]. *)
Lemma modifyRoute_pool (action iface dest : string) (prefix : Z) (gateway : string)
    (tableIndex : Z) s :
  ((modifyRoute action iface dest prefix gateway tableIndex s).1 = -1
   /\ pool (modifyRoute action iface dest prefix gateway tableIndex s).2 = pool s)
  \/ ((modifyRoute action iface dest prefix gateway tableIndex s).1 = 0
      /\ pool (modifyRoute action iface dest prefix gateway tableIndex s).2
         = modifyRuleCount tableIndex action (modifyRuleCount tableIndex action (pool s))).
Proof.
  unfold modifyRoute.
  destruct (String.eqb "::" gateway);
    match goal with
    | |- context [runCmd ?argv s] =>
        destruct (runCmd_spec argv s) as (_ & Hpool & _);
        destruct (runCmd argv s) as [ret s']
    end;
    cbn [fst snd] in *;
    (destruct (ret =? 0); cbn [negb fst snd];
     [right; split; [reflexivity |]; cbn; rewrite Hpool; reflexivity
     | left; split; [reflexivity |]; cbn; exact Hpool]).
Qed.

Lemma modifyRoute_ADD_table (iface dest : string) (prefix : Z) (gateway : string)
    (tableIndex : Z) s :
  mInterfaceTable (pool (modifyRoute ADD iface dest prefix gateway tableIndex s).2)
  = mInterfaceTable (pool s).
Proof.
  destruct (modifyRoute_pool ADD iface dest prefix gateway tableIndex s)
    as [[_ ->] | [_ ->]]; [reflexivity |].
  rewrite !table_modifyRuleCount_kept; auto.
Qed.

(** X3: whenever [modifyRoute] succeeds, the rule count of its table has
    been updated twice, once by the statements of its own body and once by
    its call of [modifyRuleCount]; when it fails the pool is untouched. *)
Theorem modifyRoute_success_counts_twice (action iface dest : string) (prefix : Z)
    (gateway : string) (tableIndex : Z) s :
  ((modifyRoute action iface dest prefix gateway tableIndex s).1 = 0 ->
   pool (modifyRoute action iface dest prefix gateway tableIndex s).2
   = modifyRuleCount tableIndex action (modifyRuleCount tableIndex action (pool s)))
  /\ ((modifyRoute action iface dest prefix gateway tableIndex s).1 <> 0 ->
      pool (modifyRoute action iface dest prefix gateway tableIndex s).2 = pool s).
Proof.
  destruct (modifyRoute_pool action iface dest prefix gateway tableIndex s)
    as [[Hret Hpool] | [Hret Hpool]]; rewrite Hret, Hpool; split; intros; congruence.
Qed.

Lemma setFwmarkRule_commands_pool (iface : string) (add : bool) (tableIndex : Z) s :
  pool (setFwmarkRule_commands iface add tableIndex s).2 = pool s.
Proof.
  unfold setFwmarkRule_commands.
  match goal with
  | |- context [runCmd ?argv s] =>
      destruct (runCmd_spec argv s) as (_ & Hpool & _);
      destruct (runCmd argv s) as [ret s']
  end.
  cbn [fst snd] in *. destruct (ret =? 0); cbn [negb]; [| exact Hpool].
  match goal with
  | |- context [runIptables ?t ?args s'] =>
      destruct (runIptables_spec t args s') as (_ & Hpool' & _)
  end.
  congruence.
Qed.

Lemma setUidRule_pool (iface : string) (uid_start uid_end : Z) (add : bool) s :
  pool (setUidRule iface uid_start uid_end add s).2 = pool s.
Proof.
  unfold setUidRule.
  destruct (findTableNumber (pool s) iface =? -1); [reflexivity |]. cbv zeta.
  destruct add; unfold mUidMarkMap_add, mUidMarkMap_remove;
    match goal with
    | |- context [UidMarkMap_add ?a ?b ?m ?w] => destruct (UidMarkMap_add a b m w) as [[] w']
    | |- context [UidMarkMap_remove ?a ?b ?m ?w] =>
        destruct (UidMarkMap_remove a b m w) as [[] w']
    end; cbn [negb]; try reflexivity;
    match goal with
    | |- context [runIptables ?t ?args ?s'] =>
        destruct (runIptables_spec t args s') as (_ & -> & _)
    end; reflexivity.
Qed.

(** C8: [removeRoute] for an interface that [findTableNumber] does not find
    returns -1 with [errno] set to [ENODEV] and the reply "Interface not
    found"; the pool is as before, and so is the world: nothing was run. *)
Theorem removeRoute_untracked (iface dest : string) (prefix : Z) (gateway : string) s :
  findTableNumber (pool s) iface = -1 ->
  (removeRoute iface dest prefix gateway s).1 = -1
  /\ pool (removeRoute iface dest prefix gateway s).2 = pool s
  /\ world (removeRoute iface dest prefix gateway s).2 = world s
  /\ errno (removeRoute iface dest prefix gateway s).2 = Some ENODEV
  /\ trace (removeRoute iface dest prefix gateway s).2
     = trace s ++ [SendMsg OperationFailed "Interface not found" true].
Proof.
  intros Hnone. unfold removeRoute. rewrite Hnone. cbn. auto.
Qed.

(** C9: with every slot occupied, [addRoute] and [addFwmarkRule] for an
    interface that is not found return -1 with [errno] set to [ENODEV]
    ([addRoute] also replies "Max number NATed"); the pool, names and
    counts, is as before and nothing was run. *)
Theorem allocation_fails_when_pool_full (iface dest : string) (prefix : Z)
    (gateway : string) s :
  pool_full (pool s) ->
  findTableNumber (pool s) iface = -1 ->
  ((addRoute iface dest prefix gateway s).1 = -1
   /\ errno (addRoute iface dest prefix gateway s).2 = Some ENODEV
   /\ pool (addRoute iface dest prefix gateway s).2 = pool s
   /\ world (addRoute iface dest prefix gateway s).2 = world s
   /\ trace (addRoute iface dest prefix gateway s).2
      = trace s ++ [SendMsg OperationFailed "Max number NATed" true])
  /\ ((addFwmarkRule iface s).1 = -1
      /\ errno (addFwmarkRule iface s).2 = Some ENODEV
      /\ pool (addFwmarkRule iface s).2 = pool s
      /\ world (addFwmarkRule iface s).2 = world s
      /\ trace (addFwmarkRule iface s).2 = trace s).
Proof.
  intros Hfull Hnone. apply findTableNumber_full in Hfull.
  unfold addRoute, addFwmarkRule, setFwmarkRule. rewrite Hnone, Hfull. cbn. auto 10.
Qed.

(** C7: [setUidRule] never touches the pool.  For an interface that is not
    found it returns -1 with [errno] set to [EINVAL] and calls nothing.
    When the UID mark map refuses the range it returns -1 with [EINVAL] and
    the map call is the only call made.  When the map accepts, the one
    call that follows is [execIptables] on the mangle table, whose status is
    returned. *)
Theorem setUidRule_error_cases (iface : string) (uid_start uid_end : Z) (add : bool) s :
  let r := setUidRule iface uid_start uid_end add s in
  let tableIndex := findTableNumber (pool s) iface in
  let mark := wrap_int (tableIndex + BASE_TABLE_NUMBER) in
  let map_result :=
    if add then UidMarkMap_add uid_start uid_end mark (world s)
    else UidMarkMap_remove uid_start uid_end mark (world s) in
  let map_call :=
    if add then UidMarkMapAdd uid_start uid_end mark
    else UidMarkMapRemove uid_start uid_end mark in
  let rule :=
    ["-t"; "mangle"; if add then "-A" else "-D"; "st_mangle_OUTPUT"; "-m"; "owner";
     "--uid-owner"; snprintf 24 (pretty uid_start +:+ "-" +:+ pretty uid_end);
     "-j"; "MARK"; "--set-mark"; snprintf 11 (pretty mark)] in
  pool r.2 = pool s
  /\ (tableIndex = -1 ->
      r.1 = -1 /\ errno r.2 = Some EINVAL /\ world r.2 = world s /\ trace r.2 = trace s)
  /\ (tableIndex <> -1 -> map_result.1 = false ->
      r.1 = -1 /\ errno r.2 = Some EINVAL /\ world r.2 = map_result.2
      /\ trace r.2 = trace s ++ [map_call])
  /\ (tableIndex <> -1 -> map_result.1 = true ->
      r.1 = (execIptables V4V6 rule map_result.2).1
      /\ world r.2 = (execIptables V4V6 rule map_result.2).2
      /\ trace r.2 = trace s ++ [map_call; Iptables V4V6 rule]).
Proof.
  cbv zeta. unfold setUidRule.
  destruct (Z.eqb_spec (findTableNumber (pool s) iface) (-1)) as [Hnone | Hfound].
  - cbn. repeat split; auto; intros; congruence.
  - set (mark := wrap_int (findTableNumber (pool s) iface + BASE_TABLE_NUMBER)).
    cbv zeta.
    destruct add; unfold mUidMarkMap_add, mUidMarkMap_remove;
      [destruct (UidMarkMap_add uid_start uid_end mark (world s)) as [[] w]
      |destruct (UidMarkMap_remove uid_start uid_end mark (world s)) as [[] w]];
      cbn [negb fst snd];
      try match goal with
        | |- context [runIptables ?t ?args ?s'] =>
            destruct (runIptables_spec t args s') as (-> & -> & _ & -> & ->)
        end;
      cbn [pool world trace errno set_errno]; rewrite <- ?app_assoc;
      repeat match goal with
        | |- _ /\ _ => split
        | |- _ -> _ => intro
        end;
      try congruence; try discriminate; reflexivity.
Qed.

(** ** The arrays stay what their declarations say *)

Lemma Pool_wf_set_name p (i : Z) (name : string) :
  Pool_wf p -> (String.length name <= IFNAMSIZ)%nat -> Pool_wf (set_name i name p).
Proof.
  intros (Hrows & Hcounts & Hfit & Hints) Hname. unfold Pool_wf; cbn.
  rewrite length_store. repeat split; try assumption. by apply Forall_store.
Qed.

Lemma Pool_wf_set_count p (i n : Z) :
  Pool_wf p -> INT_MIN <= n <= INT_MAX -> Pool_wf (set_count i n p).
Proof.
  intros (Hrows & Hcounts & Hfit & Hints) Hn. unfold Pool_wf; cbn.
  rewrite length_store. repeat split; try assumption. by apply Forall_store.
Qed.

Lemma Pool_wf_modifyRuleCount p (i : Z) (action : string) :
  Pool_wf p -> Pool_wf (modifyRuleCount i action p).
Proof.
  intros Hwf. unfold modifyRuleCount.
  destruct (String.eqb action ADD).
  - apply Pool_wf_set_count; [exact Hwf | apply wrap_int_range].
  - destruct (wrap_int (count_at p i - 1) <? 1).
    + apply Pool_wf_set_name; [| cbn; lia].
      apply Pool_wf_set_count; [exact Hwf | unfold INT_MIN, INT_MAX; lia].
    + apply Pool_wf_set_count; [exact Hwf | apply wrap_int_range].
Qed.

Lemma Pool_wf_modifyRoute (action iface dest : string) (prefix : Z) (gateway : string)
    (tableIndex : Z) s :
  Pool_wf (pool s) ->
  Pool_wf (pool (modifyRoute action iface dest prefix gateway tableIndex s).2).
Proof.
  intros Hwf.
  destruct (modifyRoute_pool action iface dest prefix gateway tableIndex s)
    as [[_ ->] | [_ ->]]; [exact Hwf |].
  by do 2 apply Pool_wf_modifyRuleCount.
Qed.

(** X1: the constructor makes the arrays well formed and every public
    operation keeps them so, whatever the external commands return: both
    arrays keep [INTERFACES_TRACKED] entries, a row never holds more than
    [IFNAMSIZ] characters, a count never leaves the range of an [int]. *)
Theorem Pool_wf_invariant :
  (forall w : World, Pool_wf (pool (SecondaryTableController w)))
  /\ forall (o : Operation) s, Pool_wf (pool s) -> Pool_wf (pool (perform o s).2).
Proof.
  split.
  - intros w. unfold Pool_wf; cbn. rewrite !length_replicate.
    repeat split; apply Forall_replicate; [cbn; lia | unfold INT_MIN, INT_MAX; lia].
  - intros [iface dest prefix gateway | iface dest prefix gateway
           | tableIndex action addr | tableIndex action iface addr
           | iface add | iface uid_start uid_end add] s Hwf; cbn [perform].
    + unfold addRoute.
      destruct (findTableNumber (pool s) iface =? -1);
        [destruct (findTableNumber (pool s) EmptyString =? -1); [exact Hwf |] |];
        apply Pool_wf_modifyRoute; [| exact Hwf].
      apply Pool_wf_set_name; [exact Hwf | apply strncpy_length].
    + unfold removeRoute.
      destruct (findTableNumber (pool s) iface =? -1); [exact Hwf |].
      by apply Pool_wf_modifyRoute.
    + unfold modifyFromRule.
      destruct (verifyTableIndex (pool s) tableIndex =? 0); cbn [negb]; [| exact Hwf].
      match goal with
      | |- context [runCmd ?argv s] =>
          destruct (runCmd_spec argv s) as (_ & Hpool & _);
          destruct (runCmd argv s) as [ret s']
      end.
      cbn [fst snd] in *. destruct (ret =? 0); cbn [negb snd pool with_pool];
        rewrite Hpool; [| exact Hwf].
      by apply Pool_wf_modifyRuleCount.
    + unfold modifyLocalRoute.
      destruct (verifyTableIndex (pool s) tableIndex =? 0); cbn [negb]; [| exact Hwf].
      match goal with
      | |- context [runCmd ?argv ?s'] =>
          destruct (runCmd_spec argv s') as (_ & -> & _)
      end.
      by apply Pool_wf_modifyRuleCount.
    + unfold setFwmarkRule.
      destruct (findTableNumber (pool s) iface =? -1);
        [destruct (findTableNumber (pool s) EmptyString =? -1); [exact Hwf |] |];
        rewrite setFwmarkRule_commands_pool; [| exact Hwf].
      apply Pool_wf_set_name; [exact Hwf | apply strncpy_length].
    + by rewrite setUidRule_pool.
Qed.

(** ** An index once assigned stays *)



Lemma strncmp_eq_nonempty_empty (iface : string) :
  iface <> EmptyString -> strncmp_eq iface EmptyString (IFNAMSIZ + 1) = false.
Proof.
  intros Hiface. rewrite Nat.add_1_r.
  destruct (strncmp_eq iface EmptyString (S IFNAMSIZ)) eqn:Hcmp; [| reflexivity].
  by apply strncmp_eq_empty_r in Hcmp.
Qed.








(** A name written over a row that nothing before it matches is found at
    that row. *)
Lemma findTableNumber_from_insert_match (iface x : string) (rows : list string)
    (base : Z) (k : nat) :
  Forall (fun name => strncmp_eq iface name (IFNAMSIZ + 1) = false) rows ->
  (k < length rows)%nat ->
  strncmp_eq iface x (IFNAMSIZ + 1) = true ->
  findTableNumber_from iface (<[k := x]> rows) base = base + Z.of_nat k.
Proof.
  intros Hall. revert base k.
  induction Hall as [|name rest Hname Hrest IH]; intros base k Hk Hx;
    cbn [length] in Hk; [lia |].
  destruct k as [|k].
  - change (<[0%nat := x]> (name :: rest)) with (x :: rest).
    cbn [findTableNumber_from]. rewrite Hx. lia.
  - change (<[S k := x]> (name :: rest)) with (name :: <[k := x]> rest).
    cbn [findTableNumber_from]. rewrite Hname, IH by (lia || exact Hx). lia.
Qed.

(** The first allocation for an interface whose name fits a row leaves it
    found at the slot it took. *)
Lemma findTableNumber_allocated p (iface : string) :
  (String.length iface <= IFNAMSIZ)%nat ->
  findTableNumber p iface = -1 ->
  findTableNumber p EmptyString <> -1 ->
  findTableNumber (set_name (findTableNumber p EmptyString) (strncpy iface IFNAMSIZ) p)
    iface = findTableNumber p EmptyString.
Proof.
  intros Hfits Hnone Hfree. rewrite strncpy_fits by exact Hfits.
  destruct (findTableNumber_free p Hfree) as [Hrange _].
  apply (findTableNumber_from_none iface (mInterfaceTable p) 0) in Hnone; [| lia].
  unfold findTableNumber at 1. unfold set_name, store. cbn [mInterfaceTable].
  destruct (Z.ltb_spec (findTableNumber p EmptyString) 0); [lia |].
  rewrite findTableNumber_from_insert_match;
    [lia | exact Hnone | lia | apply strncmp_eq_refl].
Qed.


(** C10: [findTableNumber] returns the least index whose row holds the
    name it is given, and -1 when no row does.  So when an interface is not
    found and a row is free, [addRoute] and [setFwmarkRule] write its name
    (cut to [IFNAMSIZ] characters) into the free row of least index, and
    into no other. *)
Theorem allocation_takes_least_free_slot (iface dest : string) (prefix : Z)
    (gateway : string) (add : bool) s :
  Pool_wf (pool s) ->
  let p := pool s in
  let free := findTableNumber p EmptyString in
  ((findTableNumber p iface = -1
    /\ forall i, 0 <= i < Z.of_nat INTERFACES_TRACKED -> name_at p i <> iface)
   \/ (0 <= findTableNumber p iface < Z.of_nat INTERFACES_TRACKED
       /\ name_at p (findTableNumber p iface) = iface
       /\ forall j, 0 <= j < findTableNumber p iface -> name_at p j <> iface))
  /\ (findTableNumber p iface = -1 -> free <> -1 ->
      (0 <= free < Z.of_nat INTERFACES_TRACKED
       /\ name_at p free = EmptyString
       /\ forall j, 0 <= j < free -> name_at p j <> EmptyString)
      /\ mInterfaceTable (pool (addRoute iface dest prefix gateway s).2)
         = store (mInterfaceTable p) free (strncpy iface IFNAMSIZ)
      /\ pool (setFwmarkRule iface add s).2 = set_name free (strncpy iface IFNAMSIZ) p).
Proof.
  intros Hwf p free. split; [by apply findTableNumber_least |].
  intros Hnone Hfree. split.
  - destruct (findTableNumber_least p EmptyString Hwf) as [[? _] | Hleast];
      [by subst free | exact Hleast].
  - unfold addRoute, setFwmarkRule. fold p free. rewrite Hnone.
    destruct (Z.eqb_spec (-1) (-1)) as [_ | ?]; [| congruence].
    destruct (Z.eqb_spec free (-1)) as [? | _]; [congruence |].
    by rewrite modifyRoute_ADD_table, setFwmarkRule_commands_pool.
Qed.

Lemma verifyTableIndex_ok p (tableIndex : Z) :
  verifyTableIndex p tableIndex = 0 ->
  0 <= tableIndex < Z.of_nat INTERFACES_TRACKED /\ name_at p tableIndex <> EmptyString.
Proof.
  unfold verifyTableIndex.
  destruct (Z.ltb_spec tableIndex 0); cbn [orb]; [discriminate |].
  destruct (Z.geb_spec tableIndex (Z.of_nat INTERFACES_TRACKED)); cbn [orb];
    [discriminate |].
  destruct (String.eqb_spec (name_at p tableIndex) EmptyString); [discriminate |].
  intros _. split; [lia | assumption].
Qed.

(** C6: on a valid index [modifyLocalRoute] leaves the pool that
    [modifyRuleCount] makes of it, whatever status the route command then
    returns (the status is handed back as the result).  For a removal the
    count goes down by one, not below zero, and from a count of 0 or 1 the
    name is cleared: the slot is free again although the command may have
    failed. *)
Theorem modifyLocalRoute_counts_before_running (tableIndex : Z)
    (action iface addr : string) s :
  Pool_wf (pool s) ->
  verifyTableIndex (pool s) tableIndex = 0 ->
  let r := modifyLocalRoute tableIndex action iface addr s in
  let cmd := [IP_PATH; "route"; action; addr; "dev"; iface; "table";
              tableIndex_str tableIndex] in
  pool r.2 = modifyRuleCount tableIndex action (pool s)
  /\ r.1 = (android_fork_execvp cmd (world s)).1
  /\ trace r.2 = trace s ++ [Exec cmd]
  /\ (action <> ADD -> 0 <= count_at (pool s) tableIndex ->
      count_at (pool r.2) tableIndex = Z.max 0 (count_at (pool s) tableIndex - 1)
      /\ (count_at (pool s) tableIndex <= 1 ->
          name_at (pool r.2) tableIndex = EmptyString
          /\ findTableNumber (pool r.2) EmptyString <> -1)).
Proof.
  intros (Hrows & Hcounts & Hfit & Hints) Hvalid r cmd.
  pose proof (verifyTableIndex_ok _ _ Hvalid) as [Hrange Hname].
  assert (Hrun : pool r.2 = modifyRuleCount tableIndex action (pool s)
                 /\ r.1 = (android_fork_execvp cmd (world s)).1
                 /\ trace r.2 = trace s ++ [Exec cmd]).
  { subst r. unfold modifyLocalRoute. rewrite Hvalid. cbn [Z.eqb negb].
    match goal with
    | |- context [runCmd ?argv ?s'] =>
        destruct (runCmd_spec argv s') as (-> & -> & _ & _ & ->)
    end. auto. }
  destruct Hrun as (Hpool & Hret & Htrace).
  split; [exact Hpool |]. split; [exact Hret |]. split; [exact Htrace |].
  intros Hact Hc. apply String.eqb_neq in Hact. rewrite Hpool.
  assert (Hint : INT_MIN <= count_at (pool s) tableIndex <= INT_MAX).
  { unfold count_at.
    destruct (elem (mInterfaceRuleCount (pool s)) tableIndex) as [n|] eqn:Hel;
      cbn; [| unfold INT_MIN, INT_MAX; lia].
    apply elem_Some in Hel as [_ Hlook].
    rewrite Forall_forall in Hints. apply Hints, list_elem_of_lookup. eauto. }
  assert (Hw : wrap_int (count_at (pool s) tableIndex - 1)
               = count_at (pool s) tableIndex - 1).
  { apply wrap_int_id. unfold INT_MIN, INT_MAX in *. lia. }
  split.
  - rewrite count_at_modifyRuleCount, Hact, Hw by lia.
    destruct (Z.ltb_spec (count_at (pool s) tableIndex - 1) 1); lia.
  - intros Hle.
    assert (Hcleared : name_at (modifyRuleCount tableIndex action (pool s)) tableIndex
                       = EmptyString).
    { apply name_at_modifyRuleCount_released; [lia | lia | exact Hact | lia]. }
    split; [exact Hcleared |]. intros Hnone.
    apply (findTableNumber_from_none EmptyString _ 0) in Hnone; [| lia].
    pose proof (name_at_Forall _ _ tableIndex Hnone) as Hcmp. cbv beta in Hcmp.
    rewrite Hcleared, strncmp_eq_refl in Hcmp.
    assert (true = false); [| discriminate].
    apply Hcmp. rewrite length_table_modifyRuleCount. lia.
Qed.


Lemma setFwmarkRule_counts (iface : string) (add : bool) s :
  mInterfaceRuleCount (pool (setFwmarkRule iface add s).2) = mInterfaceRuleCount (pool s)
  /\ length (mInterfaceTable (pool (setFwmarkRule iface add s).2))
     = length (mInterfaceTable (pool s)).
Proof.
  unfold setFwmarkRule.
  destruct (findTableNumber (pool s) iface =? -1);
    [destruct (findTableNumber (pool s) EmptyString =? -1); [by cbn |] |];
    rewrite setFwmarkRule_commands_pool; cbn; [| done].
  by rewrite length_store.
Qed.

(** ** Counts under the public operations *)

Lemma counts_within_weaken p (bound bound' : Z) :
  counts_within bound p -> bound <= bound' -> counts_within bound' p.
Proof.
  intros [Hb Hall] Hle. split; [lia |].
  eapply Forall_impl; [exact Hall |]. cbv beta. intros n Hn. lia.
Qed.

Lemma counts_within_count_at p (bound i : Z) :
  counts_within bound p -> 0 <= count_at p i <= bound.
Proof.
  intros [Hb Hall]. unfold count_at.
  destruct (elem (mInterfaceRuleCount p) i) as [n|] eqn:Hel; cbn; [| lia].
  apply elem_Some in Hel as [_ Hlook].
  rewrite Forall_forall in Hall. apply Hall, list_elem_of_lookup. eauto.
Qed.

Lemma counts_within_modifyRuleCount p (bound i : Z) (action : string) :
  counts_within bound p -> bound < INT_MAX ->
  counts_within (bound + 1) (modifyRuleCount i action p).
Proof.
  intros Hin Hbound.
  pose proof (counts_within_count_at p bound i Hin) as Hc.
  pose proof (counts_within_weaken p bound (bound + 1) Hin) as [Hb Hall]; [lia |].
  unfold INT_MAX in Hbound.
  split; [exact Hb |]. unfold modifyRuleCount.
  destruct (String.eqb action ADD); cbn.
  - apply Forall_store; [exact Hall |].
    rewrite wrap_int_id; [lia | unfold INT_MIN, INT_MAX; lia].
  - rewrite wrap_int_id by (unfold INT_MIN, INT_MAX; lia).
    destruct (Z.ltb_spec (count_at p i - 1) 1); cbn;
      (apply Forall_store; [exact Hall | lia]).
Qed.

Lemma counts_within_perform (o : Operation) (bound : Z) s :
  counts_within bound (pool s) -> bound + 2 <= INT_MAX ->
  counts_within (bound + 2) (pool (perform o s).2).
Proof.
  intros Hin Hbound.
  assert (Hkeep : counts_within (bound + 2) (pool s))
    by (apply (counts_within_weaken _ bound); [exact Hin | lia]).
  assert (Hone : forall i action,
            counts_within (bound + 2) (modifyRuleCount i action (pool s))).
  { intros i action. apply (counts_within_weaken _ (bound + 1)); [| lia].
    apply counts_within_modifyRuleCount; [exact Hin | lia]. }
  assert (Hroute : forall action iface dest prefix gateway i s',
            pool s' = pool s \/ mInterfaceRuleCount (pool s') = mInterfaceRuleCount (pool s) ->
            counts_within (bound + 2)
              (pool (modifyRoute action iface dest prefix gateway i s').2)).
  { intros action iface dest prefix gateway i s' Hsame.
    assert (Hin' : counts_within bound (pool s')).
    { destruct Hsame as [-> | Hsame]; [exact Hin |].
      unfold counts_within. rewrite Hsame. exact Hin. }
    assert (Hkeep' : counts_within (bound + 2) (pool s'))
      by (apply (counts_within_weaken _ bound); [exact Hin' | lia]).
    destruct (modifyRoute_pool action iface dest prefix gateway i s')
      as [[_ ->] | [_ ->]]; [exact Hkeep' |].
    replace (bound + 2) with (bound + 1 + 1) by lia.
    apply counts_within_modifyRuleCount; [| lia].
    apply counts_within_modifyRuleCount; [exact Hin' | lia]. }
  destruct o as [iface dest prefix gateway | iface dest prefix gateway
                | tableIndex action addr | tableIndex action iface addr
                | iface add | iface uid_start uid_end add]; cbn [perform].
  - unfold addRoute.
    destruct (findTableNumber (pool s) iface =? -1);
      [destruct (findTableNumber (pool s) EmptyString =? -1); [exact Hkeep |] |];
      apply Hroute; [by right | by left].
  - unfold removeRoute.
    destruct (findTableNumber (pool s) iface =? -1); [exact Hkeep |].
    apply Hroute. by left.
  - unfold modifyFromRule.
    destruct (verifyTableIndex (pool s) tableIndex =? 0); cbn [negb]; [| exact Hkeep].
    match goal with
    | |- context [runCmd ?argv s] =>
        destruct (runCmd_spec argv s) as (_ & Hpool & _);
        destruct (runCmd argv s) as [ret s']
    end.
    cbn [fst snd] in *. destruct (ret =? 0); cbn [negb snd pool with_pool];
      rewrite Hpool; [apply Hone | exact Hkeep].
  - unfold modifyLocalRoute.
    destruct (verifyTableIndex (pool s) tableIndex =? 0); cbn [negb]; [| exact Hkeep].
    match goal with
    | |- context [runCmd ?argv ?s'] =>
        destruct (runCmd_spec argv s') as (_ & -> & _)
    end.
    apply Hone.
  - destruct (setFwmarkRule_counts iface add s) as [Hcounts _].
    unfold counts_within. rewrite Hcounts. exact Hkeep.
  - by rewrite setUidRule_pool.
Qed.

(** X2: along every run of public operations, whatever the external
    commands return, no rule count becomes negative (each operation adds at
    most two to a count, and the run is short enough for an [int]). *)
Theorem counts_never_negative (ops : list Operation) (bound : Z) s :
  counts_within bound (pool s) ->
  bound + 2 * Z.of_nat (length ops) <= INT_MAX ->
  counts_within (bound + 2 * Z.of_nat (length ops)) (pool (run ops s)).
Proof.
  revert s bound. unfold run.
  induction ops as [|o ops IH]; intros s bound Hin Hbound; cbn [foldl length] in *.
  - replace (bound + 2 * Z.of_nat 0) with bound by lia. exact Hin.
  - replace (bound + 2 * Z.of_nat (S (length ops)))
      with ((bound + 2) + 2 * Z.of_nat (length ops)) by lia.
    apply IH; [| lia].
    apply counts_within_perform; [exact Hin | lia].
Qed.


(** C2, the code on every input: [setFwmarkRule], adding or removing,
    succeeding or failing, leaves every rule count as it was and clears no
    name: a fwmark rule is not counted, and removing one releases no slot. *)
Theorem setFwmarkRule_counts_nothing (iface : string) (add : bool) s :
  mInterfaceRuleCount (pool (setFwmarkRule iface add s).2) = mInterfaceRuleCount (pool s)
  /\ forall i, name_at (pool s) i <> EmptyString ->
       name_at (pool (setFwmarkRule iface add s).2) i = name_at (pool s) i.
Proof.
  unfold setFwmarkRule.
  destruct (Z.eqb_spec (findTableNumber (pool s) iface) (-1)) as [Hnone | Hfound].
  - destruct (Z.eqb_spec (findTableNumber (pool s) EmptyString) (-1)) as [Hfull | Hfree].
    + cbn. auto.
    + rewrite setFwmarkRule_commands_pool. cbn [pool with_pool].
      split; [reflexivity |]. intros i Hi.
      apply name_at_set_name_ne. intros <-.
      by destruct (findTableNumber_free _ Hfree) as [_ Hempty].
  - rewrite setFwmarkRule_commands_pool. auto.
Qed.


(** ** The invariant the controller keeps *)

Lemma name_at_elem p (i : Z) (name : string) :
  elem (mInterfaceTable p) i = Some name -> name_at p i = name.
Proof. unfold name_at. by intros ->. Qed.

Lemma unoccupied_unreferenced_count_at p (i : Z) :
  unoccupied_unreferenced p -> name_at p i = EmptyString -> count_at p i = 0.
Proof.
  unfold unoccupied_unreferenced, name_at, count_at, elem. intros Hinv.
  destruct (i <? 0); [reflexivity |].
  destruct (mInterfaceTable p !! Z.to_nat i) as [name|] eqn:Hlook; cbn.
  - destruct (Forall2_lookup_l _ _ _ _ _ Hinv Hlook) as (n & -> & Hn). exact Hn.
  - intros _. apply lookup_ge_None in Hlook.
    rewrite (Forall2_length _ _ _ Hinv) in Hlook.
    by rewrite (lookup_ge_None_2 _ _ Hlook).
Qed.

(** An update keeps the invariant, provided an addition goes to a slot that
    has a name. *)
Lemma unoccupied_unreferenced_modifyRuleCount p (i : Z) (action : string) :
  unoccupied_unreferenced p ->
  (action = ADD -> name_at p i <> EmptyString) ->
  unoccupied_unreferenced (modifyRuleCount i action p).
Proof.
  intros Hinv Hadd. unfold modifyRuleCount.
  destruct (String.eqb_spec action ADD) as [Hact | Hact].
  - apply Forall2_store_r; [exact Hinv |].
    intros name Hel Hempty. apply name_at_elem in Hel. subst name.
    by destruct (Hadd Hact).
  - destruct (Z.ltb_spec (wrap_int (count_at p i - 1)) 1) as [Hlow | Hhigh].
    + apply Forall2_store_l; cbn.
      * apply Forall2_store_r; [exact Hinv | auto].
      * intros n Hel _. by apply elem_store_same in Hel.
    + apply Forall2_store_r; [exact Hinv |].
      intros name Hel Hempty. apply name_at_elem in Hel. subst name.
      rewrite (unoccupied_unreferenced_count_at p i Hinv Hempty) in Hhigh.
      vm_compute in Hhigh. by destruct Hhigh.
Qed.

Lemma name_at_modifyRuleCount_ADD p (i j : Z) :
  name_at (modifyRuleCount i ADD p) j = name_at p j.
Proof. unfold name_at. rewrite table_modifyRuleCount_kept; auto. Qed.

Lemma unoccupied_unreferenced_modifyRoute (action iface dest : string) (prefix : Z)
    (gateway : string) (tableIndex : Z) s :
  unoccupied_unreferenced (pool s) ->
  (action = ADD -> name_at (pool s) tableIndex <> EmptyString) ->
  unoccupied_unreferenced
    (pool (modifyRoute action iface dest prefix gateway tableIndex s).2).
Proof.
  intros Hinv Hadd.
  destruct (modifyRoute_pool action iface dest prefix gateway tableIndex s)
    as [[_ ->] | [_ ->]]; [exact Hinv |].
  apply unoccupied_unreferenced_modifyRuleCount.
  - by apply unoccupied_unreferenced_modifyRuleCount.
  - intros ->. rewrite name_at_modifyRuleCount_ADD. by apply Hadd.
Qed.

(** Writing a name into the free slot found by the scan keeps the
    invariant: that slot had count 0. *)
Lemma unoccupied_unreferenced_allocate p (name : string) :
  unoccupied_unreferenced p ->
  findTableNumber p EmptyString <> -1 ->
  unoccupied_unreferenced (set_name (findTableNumber p EmptyString) name p).
Proof.
  intros Hinv Hfree. destruct (findTableNumber_free p Hfree) as [_ Hempty].
  unfold unoccupied_unreferenced. cbn [set_name mInterfaceTable mInterfaceRuleCount].
  apply Forall2_store_l; [exact Hinv |].
  intros n Hel _.
  pose proof (unoccupied_unreferenced_count_at p _ Hinv Hempty) as Hzero.
  unfold count_at in Hzero. by rewrite Hel in Hzero.
Qed.

(** C3, as the code has it: a slot without a name has rule count 0.  This
    holds of the constructed controller and is kept by every public
    operation, whatever the external commands return, as long as [addRoute]
    is given a name that is not empty. *)
Theorem unoccupied_unreferenced_invariant :
  (forall w : World, unoccupied_unreferenced (pool (SecondaryTableController w)))
  /\ forall (o : Operation) s,
       names_an_interface o ->
       unoccupied_unreferenced (pool s) ->
       unoccupied_unreferenced (pool (perform o s).2).
Proof.
  split.
  - intros w. apply Forall2_replicate. auto.
  - intros [iface dest prefix gateway | iface dest prefix gateway
           | tableIndex action addr | tableIndex action iface addr
           | iface add | iface uid_start uid_end add] s Hname Hinv;
      cbn [perform names_an_interface] in *.
    + unfold addRoute.
      destruct (Z.eqb_spec (findTableNumber (pool s) iface) (-1)) as [Hnone | Hfound].
      * destruct (Z.eqb_spec (findTableNumber (pool s) EmptyString) (-1))
          as [Hfull | Hfree]; [exact Hinv |].
        apply unoccupied_unreferenced_modifyRoute; cbn [pool with_pool].
        -- by apply unoccupied_unreferenced_allocate.
        -- intros _. destruct (findTableNumber_free _ Hfree) as [Hrange _].
           rewrite name_at_set_name_eq by lia.
           change IFNAMSIZ with (S 15). by apply strncpy_nonempty.
      * apply unoccupied_unreferenced_modifyRoute; [exact Hinv |].
        intros _. by apply findTableNumber_named.
    + unfold removeRoute.
      destruct (Z.eqb_spec (findTableNumber (pool s) iface) (-1)) as [Hnone | Hfound];
        [exact Hinv |].
      apply unoccupied_unreferenced_modifyRoute; [exact Hinv |].
      intros Hact. discriminate Hact.
    + unfold modifyFromRule.
      destruct (Z.eqb_spec (verifyTableIndex (pool s) tableIndex) 0) as [Hvalid | _];
        cbn [negb]; [| exact Hinv].
      match goal with
      | |- context [runCmd ?argv s] =>
          destruct (runCmd_spec argv s) as (_ & Hpool & _);
          destruct (runCmd argv s) as [ret s']
      end.
      cbn [fst snd] in *. destruct (ret =? 0); cbn [negb snd pool with_pool];
        rewrite Hpool; [| exact Hinv].
      apply unoccupied_unreferenced_modifyRuleCount; [exact Hinv |].
      intros _. by apply verifyTableIndex_ok.
    + unfold modifyLocalRoute.
      destruct (Z.eqb_spec (verifyTableIndex (pool s) tableIndex) 0) as [Hvalid | _];
        cbn [negb]; [| exact Hinv].
      match goal with
      | |- context [runCmd ?argv ?s'] =>
          destruct (runCmd_spec argv s') as (_ & -> & _)
      end.
      cbn [pool with_pool].
      apply unoccupied_unreferenced_modifyRuleCount; [exact Hinv |].
      intros _. by apply verifyTableIndex_ok.
    + unfold setFwmarkRule.
      destruct (Z.eqb_spec (findTableNumber (pool s) iface) (-1)) as [Hnone | Hfound].
      * destruct (Z.eqb_spec (findTableNumber (pool s) EmptyString) (-1))
          as [Hfull | Hfree]; [exact Hinv |].
        rewrite setFwmarkRule_commands_pool. cbn [pool with_pool].
        by apply unoccupied_unreferenced_allocate.
      * by rewrite setFwmarkRule_commands_pool.
    + by rewrite setUidRule_pool.
Qed.


(** ** What one call of [modifyRoute] does *)

Lemma modifyRoute_run (action iface dest : string) (prefix : Z) (gateway : string)
    (tableIndex : Z) s :
  let cmd :=
    [IP_PATH; "route"; action; snprintf 44 (dest +:+ "/" +:+ pretty prefix)]
    ++ (if String.eqb "::" gateway then [] else ["via"; gateway])
    ++ ["dev"; iface; "table"; tableIndex_str tableIndex] in
  let res := android_fork_execvp cmd (world s) in
  modifyRoute action iface dest prefix gateway tableIndex s =
    if res.1 =? 0 then
      (0, {| pool := modifyRuleCount tableIndex action
                       (modifyRuleCount tableIndex action (pool s));
             errno := errno s; world := res.2;
             trace := (trace s ++ [Exec cmd])
                      ++ [SendMsg CommandOkay "Route modified" false] |})
    else
      (-1, {| pool := pool s; errno := Some ENODEV; world := res.2;
              trace := (trace s ++ [Exec cmd])
                       ++ [SendMsg OperationFailed "ip route modification failed"
                             true] |}).
Proof.
  cbv zeta. unfold modifyRoute, runCmd.
  destruct (String.eqb "::" gateway); cbn [app];
    match goal with
    | |- context [android_fork_execvp ?argv ?w] =>
        destruct (android_fork_execvp argv w) as [ret w']
    end; cbn [fst snd]; destruct (ret =? 0); reflexivity.
Qed.


Lemma modifyRoute_answered (action iface dest : string) (prefix : Z) (gateway : string)
    (tableIndex : Z) s s' :
  trace s' = trace s ->
  answered_once s (modifyRoute action iface dest prefix gateway tableIndex s').
Proof.
  intros Htrace. rewrite modifyRoute_run. cbv zeta.
  match goal with
  | |- context [android_fork_execvp ?argv ?w] =>
      destruct (android_fork_execvp argv w) as [ret w']
  end.
  cbn [fst snd]. rewrite Htrace.
  destruct (ret =? 0); eexists _, _; cbn [fst snd trace errno];
    (split; [rewrite <- app_assoc; reflexivity |]);
    (split; [reflexivity |]); [left | right]; eauto.
Qed.

(** X4: [addRoute] and [removeRoute] answer the client exactly once on
    every path: one reply is sent per call, [CommandOkay] exactly when the
    call returns 0, and otherwise [OperationFailed] with [errno] set to
    [ENODEV] and result -1. *)
Theorem route_requests_answered_once (iface dest : string) (prefix : Z)
    (gateway : string) s :
  answered_once s (addRoute iface dest prefix gateway s)
  /\ answered_once s (removeRoute iface dest prefix gateway s).
Proof.
  assert (Hfail : forall msg,
            answered_once s
              (-1, sendMsg OperationFailed msg true (set_errno ENODEV s))).
  { intros msg. exists [SendMsg OperationFailed msg true], (SendMsg OperationFailed msg true).
    cbn. split; [reflexivity |]. split; [reflexivity |]. right. eauto. }
  split.
  - unfold addRoute.
    destruct (findTableNumber (pool s) iface =? -1);
      [destruct (findTableNumber (pool s) EmptyString =? -1); [apply Hfail |] |];
      by apply modifyRoute_answered.
  - unfold removeRoute.
    destruct (findTableNumber (pool s) iface =? -1); [apply Hfail |].
    by apply modifyRoute_answered.
Qed.

(** X5: one call of [modifyRoute] runs exactly one command and then sends
    one reply.  The command is [ip route <action> <dest>/<prefix> dev
    <iface> table <N>] when the gateway is the string of two colons, and
    has [via <gateway>] before [dev] otherwise; its destination argument
    has at most 43 characters and is [dest/prefix] itself when that is no
    longer. *)
Theorem modifyRoute_command (action iface dest : string) (prefix : Z)
    (gateway : string) (tableIndex : Z) s :
  let r := modifyRoute action iface dest prefix gateway tableIndex s in
  let d := snprintf 44 (dest +:+ "/" +:+ pretty prefix) in
  let t := tableIndex_str tableIndex in
  (String.length d <= 43)%nat
  /\ ((String.length (dest +:+ "/" +:+ pretty prefix) <= 43)%nat ->
      d = dest +:+ "/" +:+ pretty prefix)
  /\ (gateway = "::" ->
      exists reply,
        is_reply reply = true
        /\ trace r.2
           = trace s ++ [Exec [IP_PATH; "route"; action; d; "dev"; iface; "table"; t];
                         reply])
  /\ (gateway <> "::" ->
      exists reply,
        is_reply reply = true
        /\ trace r.2
           = trace s ++ [Exec [IP_PATH; "route"; action; d; "via"; gateway; "dev";
                               iface; "table"; t];
                         reply]).
Proof.
  cbv zeta. split; [apply (strncpy_length _ 43) |].
  split; [apply (strncpy_fits _ 43) |].
  rewrite modifyRoute_run. cbv zeta.
  split; intros Hgw.
  - subst gateway. cbn [String.eqb Ascii.eqb app].
    match goal with
    | |- context [android_fork_execvp ?argv ?w] =>
        destruct (android_fork_execvp argv w) as [ret w']
    end.
    cbn [fst snd].
    destruct (ret =? 0);
      [exists (SendMsg CommandOkay "Route modified" false)
      |exists (SendMsg OperationFailed "ip route modification failed" true)];
      cbn [snd trace]; rewrite <- app_assoc; split; reflexivity.
  - apply String.eqb_neq in Hgw. rewrite String.eqb_sym, Hgw. cbn [app].
    match goal with
    | |- context [android_fork_execvp ?argv ?w] =>
        destruct (android_fork_execvp argv w) as [ret w']
    end.
    cbn [fst snd].
    destruct (ret =? 0);
      [exists (SendMsg CommandOkay "Route modified" false)
      |exists (SendMsg OperationFailed "ip route modification failed" true)];
      cbn [snd trace]; rewrite <- app_assoc; split; reflexivity.
Qed.


(** X6: [modifyFromRule] on an index that [verifyTableIndex] refuses
    returns -1 and does nothing at all.  On a valid index it runs one [ip
    rule] command and sends no reply; when the command fails it returns -1
    and the pool is as before, and only when the command succeeds is the
    rule counted, once, and 0 returned. *)
Theorem modifyFromRule_counts_on_success_only (tableIndex : Z) (action addr : string) s :
  let r := modifyFromRule tableIndex action addr s in
  let cmd := [IP_PATH; getVersion addr; "rule"; action; "from"; addr; "table";
              tableIndex_str tableIndex] in
  let res := android_fork_execvp cmd (world s) in
  (verifyTableIndex (pool s) tableIndex <> 0 -> r = (-1, s))
  /\ (verifyTableIndex (pool s) tableIndex = 0 ->
      trace r.2 = trace s ++ [Exec cmd]
      /\ world r.2 = res.2
      /\ errno r.2 = errno s
      /\ (res.1 <> 0 -> r.1 = -1 /\ pool r.2 = pool s)
      /\ (res.1 = 0 ->
          r.1 = 0 /\ pool r.2 = modifyRuleCount tableIndex action (pool s))).
Proof.
  cbv zeta. unfold modifyFromRule, runCmd.
  destruct (Z.eqb_spec (verifyTableIndex (pool s) tableIndex) 0) as [Hvalid | Hstale];
    cbn [negb]; (split; [intros; congruence || reflexivity |]); intros Hv;
    [| congruence].
  match goal with
  | |- context [android_fork_execvp ?argv ?w] =>
      destruct (android_fork_execvp argv w) as [ret w']
  end.
  cbn [fst snd].
  destruct (Z.eqb_spec ret 0) as [-> | Hret]; cbn [negb fst snd pool trace world errno with_pool];
    repeat match goal with
      | |- _ /\ _ => split
      | |- _ -> _ => intro
      end; try reflexivity; congruence.
Qed.

Lemma setFwmarkRule_commands_run (iface : string) (add : bool) (tableIndex : Z) s :
  let t := tableIndex_str tableIndex in
  let rule := [IP_PATH; "rule"; if add then "add" else "del"; "fwmark"; t; "table"; t] in
  let nat := ["-t"; "nat"; if add then "-A" else "-D"; "st_nat_POSTROUTING"; "-o"; iface;
              "-m"; "mark"; "--mark"; t; "-j"; "MASQUERADE"] in
  let res := android_fork_execvp rule (world s) in
  let res' := execIptables V4 nat res.2 in
  setFwmarkRule_commands iface add tableIndex s =
    if res.1 =? 0 then
      (res'.1, {| pool := pool s; errno := errno s; world := res'.2;
                  trace := (trace s ++ [Exec rule]) ++ [Iptables V4 nat] |})
    else
      (res.1, {| pool := pool s; errno := errno s; world := res.2;
                 trace := trace s ++ [Exec rule] |}).
Proof.
  cbv zeta. unfold setFwmarkRule_commands, runCmd, runIptables.
  match goal with
  | |- context [android_fork_execvp ?argv ?w] =>
      destruct (android_fork_execvp argv w) as [ret w']
  end.
  cbn [fst snd]. destruct (ret =? 0); cbn [negb world]; [| reflexivity].
  match goal with
  | |- context [execIptables ?a ?b ?w] => destruct (execIptables a b w) as [ret' w'']
  end.
  reflexivity.
Qed.

(** X7: for an interface found at index [i], [setFwmarkRule] first runs
    the fwmark rule, whose mark and table are the same number; if that
    command fails its status is the result and the NAT rule is not
    attempted; if it succeeds the one call that follows is the IPv4 NAT
    rule for the same mark, whose status is the result.  The pool and
    [errno] are untouched either way. *)
Theorem setFwmarkRule_nat_follows_fwmark (iface : string) (add : bool) (i : Z) s :
  findTableNumber (pool s) iface = i -> i <> -1 ->
  let r := setFwmarkRule iface add s in
  let t := tableIndex_str i in
  let rule := [IP_PATH; "rule"; if add then "add" else "del"; "fwmark"; t; "table"; t] in
  let nat := ["-t"; "nat"; if add then "-A" else "-D"; "st_nat_POSTROUTING"; "-o"; iface;
              "-m"; "mark"; "--mark"; t; "-j"; "MASQUERADE"] in
  let res := android_fork_execvp rule (world s) in
  pool r.2 = pool s /\ errno r.2 = errno s
  /\ (res.1 <> 0 -> r.1 = res.1 /\ world r.2 = res.2 /\ trace r.2 = trace s ++ [Exec rule])
  /\ (res.1 = 0 ->
      r.1 = (execIptables V4 nat res.2).1
      /\ world r.2 = (execIptables V4 nat res.2).2
      /\ trace r.2 = trace s ++ [Exec rule; Iptables V4 nat]).
Proof.
  intros Hfind Hfound. cbv zeta. unfold setFwmarkRule. rewrite Hfind.
  destruct (Z.eqb_spec i (-1)) as [? | _]; [congruence |].
  rewrite setFwmarkRule_commands_run. cbv zeta.
  destruct (android_fork_execvp _ (world s)) as [ret w']. cbn [fst snd].
  destruct (Z.eqb_spec ret 0) as [-> | Hret]; cbn [fst snd pool trace world errno];
    rewrite <- ?app_assoc;
    repeat match goal with
      | |- _ /\ _ => split
      | |- _ -> _ => intro
      end; try reflexivity; congruence.
Qed.


(** ** Names and indices determine each other *)

Lemma name_at_nonempty_lookup p (i : Z) (name : string) :
  name_at p i = name -> name <> EmptyString ->
  0 <= i /\ mInterfaceTable p !! Z.to_nat i = Some name.
Proof.
  unfold name_at. intros Hname Hne.
  destruct (elem (mInterfaceTable p) i) as [n|] eqn:Hel; cbn in Hname;
    [| congruence].
  subst n. by apply elem_Some.
Qed.

Lemma distinct_names_set_name p (i : Z) (x : string) :
  distinct_names p ->
  x = EmptyString \/ (forall (j : nat) name, mInterfaceTable p !! j = Some name -> name <> x) ->
  distinct_names (set_name i x p).
Proof.
  intros Hdist Hx a b name. unfold set_name, store. cbn [mInterfaceTable].
  destruct (i <? 0); [apply Hdist |].
  rewrite !list_lookup_insert.
  destruct (decide (Z.to_nat i = a /\ (Z.to_nat i < length (mInterfaceTable p))%nat))
    as [[Ha _] | _];
    destruct (decide (Z.to_nat i = b /\ (Z.to_nat i < length (mInterfaceTable p))%nat))
      as [[Hb _] | _]; intros Hla Hlb Hne.
  - congruence.
  - injection Hla as <-. destruct Hx as [-> | Hfresh]; [congruence |].
    by destruct (Hfresh b x Hlb).
  - injection Hlb as <-. destruct Hx as [-> | Hfresh]; [congruence |].
    by destruct (Hfresh a x Hla).
  - by apply (Hdist a b name).
Qed.

Lemma distinct_names_modifyRuleCount p (i : Z) (action : string) :
  distinct_names p -> distinct_names (modifyRuleCount i action p).
Proof.
  intros Hdist. unfold modifyRuleCount.
  destruct (String.eqb action ADD); [exact Hdist |].
  destruct (wrap_int (count_at p i - 1) <? 1); [| exact Hdist].
  apply distinct_names_set_name; [exact Hdist | by left].
Qed.

Lemma distinct_names_modifyRoute (action iface dest : string) (prefix : Z)
    (gateway : string) (tableIndex : Z) s :
  distinct_names (pool s) ->
  distinct_names (pool (modifyRoute action iface dest prefix gateway tableIndex s).2).
Proof.
  intros Hdist.
  destruct (modifyRoute_pool action iface dest prefix gateway tableIndex s)
    as [[_ ->] | [_ ->]]; [exact Hdist |].
  by do 2 apply distinct_names_modifyRuleCount.
Qed.

(** The name written by an allocation is in no other row, when it fits. *)
Lemma distinct_names_allocate p (iface : string) (i : Z) :
  distinct_names p -> (String.length iface <= IFNAMSIZ)%nat ->
  findTableNumber p iface = -1 ->
  distinct_names (set_name i (strncpy iface IFNAMSIZ) p).
Proof.
  intros Hdist Hfits Hnone. rewrite strncpy_fits by exact Hfits.
  apply distinct_names_set_name; [exact Hdist |]. right.
  intros j name Hlook ->.
  apply (findTableNumber_from_none iface (mInterfaceTable p) 0) in Hnone; [| lia].
  rewrite Forall_forall in Hnone.
  assert (Hcmp : strncmp_eq iface iface (IFNAMSIZ + 1) = false)
    by (apply Hnone, list_elem_of_lookup; eauto).
  rewrite strncmp_eq_refl in Hcmp. discriminate.
Qed.

(** X8: no two slots ever hold the same interface name.  This holds of the
    constructed controller and is kept by every public operation, whatever
    the external commands return, as long as the names given to [addRoute]
    and [setFwmarkRule] fit a row (at most [IFNAMSIZ] characters). *)
Theorem distinct_names_invariant :
  (forall w : World, distinct_names (pool (SecondaryTableController w)))
  /\ forall (o : Operation) s,
       names_fit o -> distinct_names (pool s) -> distinct_names (pool (perform o s).2).
Proof.
  split.
  - intros w i j name Hi _ Hne. cbn in Hi.
    apply lookup_replicate in Hi as [-> _]. congruence.
  - intros [iface dest prefix gateway | iface dest prefix gateway
           | tableIndex action addr | tableIndex action iface addr
           | iface add | iface uid_start uid_end add] s Hfits Hdist;
      cbn [perform names_fit] in *.
    + unfold addRoute.
      destruct (Z.eqb_spec (findTableNumber (pool s) iface) (-1)) as [Hnone | _];
        [destruct (findTableNumber (pool s) EmptyString =? -1); [exact Hdist |] |];
        apply distinct_names_modifyRoute; [| exact Hdist].
      by apply distinct_names_allocate.
    + unfold removeRoute.
      destruct (findTableNumber (pool s) iface =? -1); [exact Hdist |].
      by apply distinct_names_modifyRoute.
    + unfold modifyFromRule.
      destruct (verifyTableIndex (pool s) tableIndex =? 0); cbn [negb]; [| exact Hdist].
      match goal with
      | |- context [runCmd ?argv s] =>
          destruct (runCmd_spec argv s) as (_ & Hpool & _);
          destruct (runCmd argv s) as [ret s']
      end.
      cbn [fst snd] in *. destruct (ret =? 0); cbn [negb snd pool with_pool];
        rewrite Hpool; [| exact Hdist].
      by apply distinct_names_modifyRuleCount.
    + unfold modifyLocalRoute.
      destruct (verifyTableIndex (pool s) tableIndex =? 0); cbn [negb]; [| exact Hdist].
      match goal with
      | |- context [runCmd ?argv ?s'] =>
          destruct (runCmd_spec argv s') as (_ & -> & _)
      end.
      by apply distinct_names_modifyRuleCount.
    + unfold setFwmarkRule.
      destruct (Z.eqb_spec (findTableNumber (pool s) iface) (-1)) as [Hnone | _];
        [destruct (findTableNumber (pool s) EmptyString =? -1); [exact Hdist |] |];
        rewrite setFwmarkRule_commands_pool; [| exact Hdist].
      by apply distinct_names_allocate.
    + by rewrite setUidRule_pool.
Qed.

Lemma verifyTableIndex_valid p (i : Z) :
  0 <= i < Z.of_nat INTERFACES_TRACKED -> name_at p i <> EmptyString ->
  verifyTableIndex p i = 0.
Proof.
  intros Hi Hname. unfold verifyTableIndex.
  destruct (Z.ltb_spec i 0); [lia |].
  destruct (Z.geb_spec i (Z.of_nat INTERFACES_TRACKED)); [lia |].
  destruct (String.eqb_spec (name_at p i) EmptyString); [contradiction | reflexivity].
Qed.

(** X9: in a well-formed pool with distinct names, names and valid indices
    determine each other.  The index [findTableNumber] returns for an
    interface passes [verifyTableIndex] and its row holds that very name;
    and the name in the row of a valid index is found at that index. *)
Theorem name_index_round_trip p (iface : string) (i : Z) :
  Pool_wf p -> distinct_names p ->
  (iface <> EmptyString -> findTableNumber p iface = i -> i <> -1 ->
   verifyTableIndex p i = 0 /\ name_at p i = iface)
  /\ (verifyTableIndex p i = 0 -> findTableNumber p (name_at p i) = i).
Proof.
  intros Hwf Hdist. split.
  - intros Hiface Hfind Hfound.
    destruct (findTableNumber_least p iface Hwf) as [[? _] | (Hrange & Hname & _)];
      [congruence |].
    rewrite Hfind in *. split; [| exact Hname].
    apply verifyTableIndex_valid; [exact Hrange | congruence].
  - intros Hvalid. destruct (verifyTableIndex_ok p i Hvalid) as [Hrange Hname].
    destruct (findTableNumber_least p (name_at p i) Hwf)
      as [[_ Hnone] | (Hrange' & Hname' & _)].
    + by destruct (Hnone i Hrange).
    + destruct (name_at_nonempty_lookup p i _ eq_refl Hname) as [_ Hli].
      destruct (name_at_nonempty_lookup p _ _ Hname' Hname) as [_ Hlr].
      pose proof (Hdist _ _ _ Hlr Hli Hname). lia.
Qed.


(** ** Adding and removing a route *)

Lemma pool_eq p q :
  mInterfaceTable p = mInterfaceTable q ->
  mInterfaceRuleCount p = mInterfaceRuleCount q -> p = q.
Proof. destruct p, q; cbn; by intros -> ->. Qed.

Lemma count_at_elem p (i : Z) :
  0 <= i -> (Z.to_nat i < length (mInterfaceRuleCount p))%nat ->
  elem (mInterfaceRuleCount p) i = Some (count_at p i).
Proof.
  intros Hi Hlen. unfold count_at.
  destruct (elem (mInterfaceRuleCount p) i) as [n|] eqn:Hel; [reflexivity |].
  unfold elem in Hel. destruct (Z.ltb_spec i 0); [lia |].
  apply lookup_ge_None in Hel. lia.
Qed.

(** Two additions raise a count by two. *)
Lemma modifyRuleCount_ADD_twice p (i : Z) :
  0 <= i -> (Z.to_nat i < length (mInterfaceRuleCount p))%nat ->
  0 <= count_at p i -> count_at p i + 2 <= INT_MAX ->
  modifyRuleCount i ADD (modifyRuleCount i ADD p) = set_count i (count_at p i + 2) p.
Proof.
  intros Hi Hlen Hc Hmax. unfold INT_MAX in Hmax.
  assert (Hone : modifyRuleCount i ADD p = set_count i (count_at p i + 1) p).
  { unfold modifyRuleCount. cbn [String.eqb ADD Ascii.eqb Bool.eqb].
    change (String.eqb ADD ADD) with true. cbv iota.
    rewrite wrap_int_id; [reflexivity | unfold INT_MIN, INT_MAX; lia]. }
  rewrite Hone. unfold modifyRuleCount. change (String.eqb ADD ADD) with true. cbv iota.
  rewrite count_at_set_count_eq by assumption.
  rewrite wrap_int_id by (unfold INT_MIN, INT_MAX; lia).
  apply pool_eq; cbn; [reflexivity |].
  rewrite store_store. f_equal. lia.
Qed.

(** Two removals from a count of at most two release the slot. *)
Lemma modifyRuleCount_DEL_twice p (i : Z) :
  0 <= i -> (Z.to_nat i < length (mInterfaceRuleCount p))%nat ->
  0 <= count_at p i <= 2 ->
  modifyRuleCount i DEL (modifyRuleCount i DEL p)
  = set_name i EmptyString (set_count i 0 p).
Proof.
  intros Hi Hlen Hc.
  assert (Hstep : forall q, 0 <= count_at q i <= 2 ->
            modifyRuleCount i DEL q
            = if count_at q i - 1 <? 1
              then set_name i EmptyString (set_count i 0 q)
              else set_count i (count_at q i - 1) q).
  { intros q Hq. unfold modifyRuleCount. change (String.eqb DEL ADD) with false.
    cbv iota zeta. rewrite wrap_int_id by (unfold INT_MIN, INT_MAX; lia). reflexivity. }
  rewrite (Hstep p Hc).
  destruct (Z.ltb_spec (count_at p i - 1) 1) as [Hlow | Hhigh].
  - rewrite Hstep; rewrite count_at_set_name, count_at_set_count_eq by assumption;
      [| lia].
    change (0 - 1 <? 1) with true. cbv iota.
    apply pool_eq; cbn; by rewrite store_store.
  - rewrite Hstep; rewrite count_at_set_count_eq by assumption; [| lia].
    destruct (Z.ltb_spec (count_at p i - 1 - 1) 1); [| lia].
    apply pool_eq; cbn; [reflexivity | by rewrite store_store].
Qed.

(** Clearing the row where an interface is found leaves it in no row. *)
Lemma findTableNumber_cleared p q (iface : string) (i : Z) :
  Pool_wf p -> distinct_names p -> iface <> EmptyString ->
  findTableNumber p iface = i -> i <> -1 ->
  mInterfaceTable q = store (mInterfaceTable p) i EmptyString ->
  findTableNumber q iface = -1.
Proof.
  intros Hwf Hdist Hiface Hfind Hfound Htable.
  destruct (findTableNumber_least p iface Hwf) as [[? _] | (Hrange & Hname & _)];
    [congruence |].
  rewrite Hfind in *.
  destruct (name_at_nonempty_lookup p i iface Hname Hiface) as [_ Hli].
  apply (findTableNumber_from_none iface (mInterfaceTable q) 0); [lia |].
  rewrite Htable. unfold store. destruct (Z.ltb_spec i 0); [lia |].
  apply Forall_lookup. intros k x. rewrite list_lookup_insert.
  destruct (decide (Z.to_nat i = k /\ (Z.to_nat i < length (mInterfaceTable p))%nat))
    as [_ | Hother]; intros Hlook.
  - injection Hlook as <-. by apply strncmp_eq_nonempty_empty.
  - destruct (strncmp_eq iface x (IFNAMSIZ + 1)) eqn:Hcmp; [| reflexivity].
    rewrite Nat.add_1_r in Hcmp. apply strncmp_eq_sound in Hcmp.
    + subst x. pose proof (Hdist _ _ _ Hlook Hli Hiface) as ->.
      pose proof (lookup_lt_Some _ _ _ Hli). by destruct Hother.
    + destruct Hwf as (_ & _ & Hfit & _). rewrite Forall_forall in Hfit.
      apply Hfit, list_elem_of_lookup. eauto.
Qed.

(** X10: when [removeRoute] succeeds for an interface whose slot counts at
    most two rules, the interface is no longer tracked: it is not found,
    its old index is refused by [verifyTableIndex], the count of the slot
    is 0 and a free slot exists again. *)
Theorem removeRoute_releases_slot (iface dest : string) (prefix : Z) (gateway : string)
    (i : Z) s :
  Pool_wf (pool s) -> distinct_names (pool s) -> iface <> EmptyString ->
  findTableNumber (pool s) iface = i -> i <> -1 ->
  0 <= count_at (pool s) i <= 2 ->
  (removeRoute iface dest prefix gateway s).1 = 0 ->
  let p' := pool (removeRoute iface dest prefix gateway s).2 in
  findTableNumber p' iface = -1
  /\ verifyTableIndex p' i = -1
  /\ count_at p' i = 0
  /\ findTableNumber p' EmptyString <> -1.
Proof.
  intros Hwf Hdist Hiface Hfind Hfound Hc Hret p'.
  pose proof Hwf as (Hrows & Hcounts & _).
  destruct (findTableNumber_range (pool s) iface) as [? | Hrange]; [congruence |].
  rewrite Hfind in Hrange.
  assert (Hp' : p' = set_name i EmptyString (set_count i 0 (pool s))).
  { subst p'. revert Hret. unfold removeRoute. rewrite Hfind.
    destruct (Z.eqb_spec i (-1)) as [? | _]; [congruence |].
    destruct (modifyRoute_pool DEL iface dest prefix gateway i s)
      as [[-> _] | [_ ->]]; [discriminate |].
    intros _. apply modifyRuleCount_DEL_twice; lia. }
  assert (Hempty : name_at p' i = EmptyString)
    by (rewrite Hp'; apply name_at_set_name_eq; cbn; lia).
  split; [| split; [| split]].
  - apply (findTableNumber_cleared (pool s) p' iface i); try assumption.
    by rewrite Hp'.
  - unfold verifyTableIndex. rewrite Hempty.
    change (String.eqb EmptyString EmptyString) with true.
    by rewrite !orb_true_r.
  - rewrite Hp', count_at_set_name. apply count_at_set_count_eq; lia.
  - intros Hnone.
    apply (findTableNumber_from_none EmptyString _ 0) in Hnone; [| lia].
    pose proof (name_at_Forall _ _ i Hnone) as Hcmp. cbv beta in Hcmp.
    rewrite Hempty, strncmp_eq_refl in Hcmp.
    assert (true = false); [| discriminate].
    apply Hcmp. rewrite Hp'. cbn. rewrite length_store. lia.
Qed.

(** X11: a successful [addRoute] for an interface that was not tracked,
    followed by a successful [removeRoute] for it, gives back the pool as
    it was before the two calls: the slot taken is free again with count 0
    and no other slot has changed. *)
Theorem addRoute_then_removeRoute_restores (iface dest dest' : string)
    (prefix prefix' : Z) (gateway gateway' : string) s :
  unoccupied_unreferenced (pool s) ->
  (String.length iface <= IFNAMSIZ)%nat ->
  findTableNumber (pool s) iface = -1 ->
  findTableNumber (pool s) EmptyString <> -1 ->
  let r1 := addRoute iface dest prefix gateway s in
  let r2 := removeRoute iface dest' prefix' gateway' r1.2 in
  r1.1 = 0 -> r2.1 = 0 -> pool r2.2 = pool s.
Proof.
  intros Hinv Hfits Hnone Hfree r1 r2 Hret1 Hret2.
  set (f := findTableNumber (pool s) EmptyString) in *.
  destruct (findTableNumber_free (pool s) Hfree) as [Hrange Hempty]. fold f in Hrange, Hempty.
  pose proof (Forall2_length _ _ _ Hinv) as Hlen.
  pose proof (unoccupied_unreferenced_count_at _ f Hinv Hempty) as Hzero.
  set (p0 := set_name f (strncpy iface IFNAMSIZ) (pool s)).
  assert (Hp1 : pool r1.2 = set_count f 2 p0).
  { subst r1. revert Hret1. unfold addRoute. rewrite Hnone. fold f.
    destruct (Z.eqb_spec (-1) (-1)) as [_ | ?]; [| congruence].
    destruct (Z.eqb_spec f (-1)) as [? | _]; [congruence |].
    match goal with
    | |- context [modifyRoute ?a ?b ?c ?d ?e ?g ?s0] =>
        destruct (modifyRoute_pool a b c d e g s0) as [[-> _] | [_ ->]]
    end; [discriminate |].
    intros _. cbn [pool with_pool]. fold p0.
    assert (Hc0 : count_at p0 f = 0) by exact Hzero.
    assert (Hl0 : length (mInterfaceRuleCount p0) = length (mInterfaceRuleCount (pool s)))
      by reflexivity.
    rewrite modifyRuleCount_ADD_twice; rewrite ?Hc0, ?Hl0; unfold INT_MAX; try lia.
    reflexivity. }
  assert (Hfound : findTableNumber (pool r1.2) iface = f).
  { rewrite Hp1. exact (findTableNumber_allocated (pool s) iface Hfits Hnone Hfree). }
  assert (Hp2 : pool r2.2 = set_name f EmptyString (set_count f 0 (pool r1.2))).
  { subst r2. revert Hret2. unfold removeRoute. rewrite Hfound.
    destruct (Z.eqb_spec f (-1)) as [? | _]; [congruence |].
    match goal with
    | |- context [modifyRoute ?a ?b ?c ?d ?e ?g ?s0] =>
        destruct (modifyRoute_pool a b c d e g s0) as [[-> _] | [_ ->]]
    end; [discriminate |].
    intros _. apply modifyRuleCount_DEL_twice; rewrite ?Hp1; cbn;
      rewrite ?length_store; try lia.
    rewrite count_at_set_count_eq; cbn; lia. }
  rewrite Hp2, Hp1. apply pool_eq; cbn.
  - rewrite store_store. apply store_same.
    unfold name_at in Hempty.
    destruct (elem (mInterfaceTable (pool s)) f) as [n|] eqn:Hel; cbn in Hempty;
      [by subst n |].
    unfold elem in Hel. destruct (Z.ltb_spec f 0); [lia |].
    apply lookup_ge_None in Hel. lia.
  - rewrite store_store. apply store_same.
    rewrite <- Hzero. apply count_at_elem; lia.
Qed.


(** ** Names that do not fit a row *)

Lemma strncmp_eq_overlong (iface name : string) :
  (String.length name <= IFNAMSIZ < String.length iface)%nat ->
  strncmp_eq iface name (IFNAMSIZ + 1) = false.
Proof.
  intros [Hname Hiface].
  destruct (strncmp_eq iface name (IFNAMSIZ + 1)) eqn:Hcmp; [| reflexivity].
  rewrite Nat.add_1_r in Hcmp. apply strncmp_eq_sound in Hcmp; [| exact Hname].
  subst. lia.
Qed.

Lemma findTableNumber_overlong p (iface : string) :
  Pool_wf p -> (IFNAMSIZ < String.length iface)%nat -> findTableNumber p iface = -1.
Proof.
  intros (_ & _ & Hfit & _) Hlong.
  apply (findTableNumber_from_none iface (mInterfaceTable p) 0); [lia |].
  eapply Forall_impl; [exact Hfit |]. cbv beta. intros name Hname.
  by apply strncmp_eq_overlong.
Qed.

Lemma Pool_wf_addRoute (iface dest : string) (prefix : Z) (gateway : string) s :
  Pool_wf (pool s) -> Pool_wf (pool (addRoute iface dest prefix gateway s).2).
Proof.
  intros Hwf. unfold addRoute.
  destruct (findTableNumber (pool s) iface =? -1);
    [destruct (findTableNumber (pool s) EmptyString =? -1); [exact Hwf |] |];
    apply Pool_wf_modifyRoute; [| exact Hwf].
  apply Pool_wf_set_name; [exact Hwf | apply strncpy_length].
Qed.

Lemma Pool_wf_setFwmarkRule (iface : string) (add : bool) s :
  Pool_wf (pool s) -> Pool_wf (pool (setFwmarkRule iface add s).2).
Proof.
  intros Hwf. unfold setFwmarkRule.
  destruct (findTableNumber (pool s) iface =? -1);
    [destruct (findTableNumber (pool s) EmptyString =? -1); [exact Hwf |] |];
    rewrite setFwmarkRule_commands_pool; [| exact Hwf].
  apply Pool_wf_set_name; [exact Hwf | apply strncpy_length].
Qed.

(** X12: an interface name of more than [IFNAMSIZ] characters is never
    tracked.  It is not found before [addRoute] or [setFwmarkRule] nor
    after; each such call that finds a free slot writes the first
    [IFNAMSIZ] characters of the name there, so the slot is taken although
    the name given will not be found again. *)
Theorem overlong_name_never_tracked (iface dest : string) (prefix : Z)
    (gateway : string) (add : bool) s :
  Pool_wf (pool s) -> (IFNAMSIZ < String.length iface)%nat ->
  findTableNumber (pool s) iface = -1
  /\ findTableNumber (pool (addRoute iface dest prefix gateway s).2) iface = -1
  /\ findTableNumber (pool (setFwmarkRule iface add s).2) iface = -1
  /\ (findTableNumber (pool s) EmptyString <> -1 ->
      name_at (pool (addRoute iface dest prefix gateway s).2)
        (findTableNumber (pool s) EmptyString) = strncpy iface IFNAMSIZ
      /\ name_at (pool (setFwmarkRule iface add s).2)
           (findTableNumber (pool s) EmptyString) = strncpy iface IFNAMSIZ
      /\ strncpy iface IFNAMSIZ <> EmptyString
      /\ strncpy iface IFNAMSIZ <> iface).
Proof.
  intros Hwf Hlong.
  pose proof (findTableNumber_overlong _ iface Hwf Hlong) as Hnone.
  split; [exact Hnone |].
  split; [apply findTableNumber_overlong; [by apply Pool_wf_addRoute | exact Hlong] |].
  split; [apply findTableNumber_overlong; [by apply Pool_wf_setFwmarkRule | exact Hlong] |].
  intros Hfree. destruct (findTableNumber_free _ Hfree) as [Hrange _].
  assert (Hstored : name_at (set_name (findTableNumber (pool s) EmptyString)
                               (strncpy iface IFNAMSIZ) (pool s))
                      (findTableNumber (pool s) EmptyString) = strncpy iface IFNAMSIZ)
    by (apply name_at_set_name_eq; lia).
  unfold addRoute, setFwmarkRule. rewrite Hnone.
  destruct (Z.eqb_spec (-1) (-1)) as [_ | ?]; [| congruence].
  destruct (Z.eqb_spec (findTableNumber (pool s) EmptyString) (-1)) as [? | _];
    [congruence |].
  rewrite setFwmarkRule_commands_pool. cbn [pool with_pool].
  split; [| split; [exact Hstored | split]].
  - unfold name_at. rewrite modifyRoute_ADD_table. exact Hstored.
  - destruct iface; [cbn in Hlong; lia | discriminate].
  - intros Heq. pose proof (strncpy_length iface IFNAMSIZ) as Hlen.
    rewrite Heq in Hlen. lia.
Qed.

(** ** A request changes one slot *)

Lemma name_at_modifyRuleCount_ne p (i j : Z) (action : string) :
  i <> j -> name_at (modifyRuleCount i action p) j = name_at p j.
Proof.
  intros Hne. unfold modifyRuleCount.
  destruct (String.eqb action ADD); [reflexivity |].
  destruct (wrap_int (count_at p i - 1) <? 1); [| reflexivity].
  by rewrite name_at_set_name_ne.
Qed.

Lemma modifyRoute_frame (action iface dest : string) (prefix : Z) (gateway : string)
    (i j : Z) s :
  i <> j ->
  name_at (pool (modifyRoute action iface dest prefix gateway i s).2) j
  = name_at (pool s) j
  /\ count_at (pool (modifyRoute action iface dest prefix gateway i s).2) j
     = count_at (pool s) j.
Proof.
  intros Hne.
  destruct (modifyRoute_pool action iface dest prefix gateway i s)
    as [[_ ->] | [_ ->]]; [by split |].
  by rewrite !name_at_modifyRuleCount_ne, !count_at_modifyRuleCount_ne.
Qed.

(** X13: a public operation changes at most the one slot it is about,
    whatever the external commands return: every other slot keeps its name
    and its rule count. *)
Theorem perform_touches_one_slot (o : Operation) (j : Z) s :
  j <> addressed_slot o (pool s) ->
  name_at (pool (perform o s).2) j = name_at (pool s) j
  /\ count_at (pool (perform o s).2) j = count_at (pool s) j.
Proof.
  destruct o as [iface dest prefix gateway | iface dest prefix gateway
                | tableIndex action addr | tableIndex action iface addr
                | iface add | iface uid_start uid_end add];
    cbn [perform addressed_slot]; intros Hj.
  - unfold addRoute.
    destruct (findTableNumber (pool s) iface =? -1);
      [destruct (findTableNumber (pool s) EmptyString =? -1); [by split |] |].
    + match goal with
      | |- context [modifyRoute ?a ?b ?c ?d ?e ?i ?s0] =>
          destruct (modifyRoute_frame a b c d e i j s0) as [-> ->]; [congruence |]
      end.
      cbn [pool with_pool]. rewrite name_at_set_name_ne by congruence. by split.
    + by apply modifyRoute_frame.
  - unfold removeRoute.
    destruct (findTableNumber (pool s) iface =? -1); [by split |].
    by apply modifyRoute_frame.
  - unfold modifyFromRule.
    destruct (verifyTableIndex (pool s) tableIndex =? 0); cbn [negb]; [| by split].
    match goal with
    | |- context [runCmd ?argv s] =>
        destruct (runCmd_spec argv s) as (_ & Hpool & _);
        destruct (runCmd argv s) as [ret s']
    end.
    cbn [fst snd] in *. destruct (ret =? 0); cbn [negb snd pool with_pool];
      rewrite Hpool; [| by split].
    by rewrite name_at_modifyRuleCount_ne, count_at_modifyRuleCount_ne.
  - unfold modifyLocalRoute.
    destruct (verifyTableIndex (pool s) tableIndex =? 0); cbn [negb]; [| by split].
    match goal with
    | |- context [runCmd ?argv ?s'] =>
        destruct (runCmd_spec argv s') as (_ & -> & _)
    end.
    cbn [pool with_pool].
    by rewrite name_at_modifyRuleCount_ne, count_at_modifyRuleCount_ne.
  - unfold setFwmarkRule.
    destruct (findTableNumber (pool s) iface =? -1);
      [destruct (findTableNumber (pool s) EmptyString =? -1); [by split |] |];
      rewrite setFwmarkRule_commands_pool; [| by split].
    cbn [pool with_pool]. rewrite name_at_set_name_ne by congruence. by split.
  - by rewrite setUidRule_pool.
Qed.


(** ** The address family of a rule *)

Lemma strchr_split (s : string) (c : ascii) :
  strchr s c = true <-> exists a b, s = a +:+ String c b.
Proof.
  induction s as [|d r IH]; cbn [strchr].
  - split; [discriminate |]. intros ([|? ?] & b & Heq); discriminate.
  - rewrite orb_true_iff, IH, Ascii.eqb_eq. split.
    + intros [-> | (a & b & ->)]; [by exists EmptyString, r |].
      by exists (String d a), b.
    + intros ([|e a] & b & Heq); cbn in Heq; injection Heq as -> ->; [by left |].
      right. eauto.
Qed.

(** X14: [getVersion] answers "-6" exactly for the addresses that have a
    colon somewhere, and "-4" exactly for those that have none. *)
Theorem getVersion_by_colon (addr : string) :
  (getVersion addr = "-6" <-> exists a b, addr = a +:+ ":" +:+ b)
  /\ (getVersion addr = "-4" <-> ~ exists a b, addr = a +:+ ":" +:+ b).
Proof.
  unfold getVersion. pose proof (strchr_split addr ":"%char) as Hsplit.
  destruct (strchr addr ":"%char).
  - assert (Hex : exists a b, addr = a +:+ ":" +:+ b) by (by apply Hsplit).
    split; split; try discriminate; try reflexivity;
      [intros _; exact Hex | intros Hno; contradiction].
  - assert (Hno : ~ exists a b, addr = a +:+ ":" +:+ b).
    { intros Hex. apply Hsplit in Hex. discriminate. }
    split; split; try discriminate; try reflexivity;
      [intros Hex; contradiction | intros _; exact Hno].
Qed.

(** ** The constructed controller *)

Lemma name_at_replicate (n : nat) (counts : list Z) (i : Z) :
  name_at {| mInterfaceTable := replicate n EmptyString; mInterfaceRuleCount := counts |} i
  = EmptyString.
Proof.
  unfold name_at, elem; cbn. destruct (i <? 0); [reflexivity |].
  destruct (replicate n EmptyString !! Z.to_nat i) as [name|] eqn:Hlook; [| reflexivity].
  by apply lookup_replicate in Hlook as [-> _].
Qed.

(** X15: a newly constructed controller tracks nothing.  No non-empty name
    is found, every index is refused by [verifyTableIndex], so
    [modifyFromRule] and [modifyLocalRoute] return -1 and leave the state as
    it is; the free slot found is slot 0, unless the pool has no slot at
    all. *)
Theorem fresh_controller_tracks_nothing (w : World) (iface action addr : string) (i : Z) :
  let s := SecondaryTableController w in
  (iface <> EmptyString -> findTableNumber (pool s) iface = -1)
  /\ verifyTableIndex (pool s) i = -1
  /\ modifyFromRule i action addr s = (-1, s)
  /\ modifyLocalRoute i action iface addr s = (-1, s)
  /\ ((0 < INTERFACES_TRACKED)%nat -> findTableNumber (pool s) EmptyString = 0)
  /\ (INTERFACES_TRACKED = 0%nat -> findTableNumber (pool s) EmptyString = -1).
Proof.
  cbv zeta.
  assert (Hstale : verifyTableIndex (pool (SecondaryTableController w)) i = -1).
  { unfold verifyTableIndex. cbn [pool SecondaryTableController].
    rewrite name_at_replicate. change (String.eqb EmptyString EmptyString) with true.
    by rewrite !orb_true_r. }
  split; [| split; [exact Hstale | split; [| split; [| split]]]].
  - intros Hiface.
    apply (findTableNumber_from_none iface _ 0); [lia |]. cbn.
    apply Forall_replicate. by apply strncmp_eq_nonempty_empty.
  - unfold modifyFromRule. by rewrite Hstale.
  - unfold modifyLocalRoute. by rewrite Hstale.
  - unfold findTableNumber. cbn [pool SecondaryTableController mInterfaceTable].
    destruct INTERFACES_TRACKED; [lia | reflexivity].
  - intros Hzero. unfold findTableNumber.
    cbn [pool SecondaryTableController mInterfaceTable]. by rewrite Hzero.
Qed.


(** ** Indices that are refused, slots that are kept *)

(** X16: an index below zero, at or beyond [INTERFACES_TRACKED], or of a
    slot without a name is refused: [modifyFromRule] and [modifyLocalRoute]
    return -1 for it and leave the whole state as it is, rule counts
    included, without running a command. *)
Theorem refused_index_changes_nothing (i : Z) (action iface addr : string) s :
  i < 0 \/ Z.of_nat INTERFACES_TRACKED <= i \/ name_at (pool s) i = EmptyString ->
  verifyTableIndex (pool s) i = -1
  /\ modifyFromRule i action addr s = (-1, s)
  /\ modifyLocalRoute i action iface addr s = (-1, s).
Proof.
  intros Hbad.
  assert (Hstale : verifyTableIndex (pool s) i = -1).
  { unfold verifyTableIndex.
    destruct (Z.ltb_spec i 0); [reflexivity |].
    destruct (Z.geb_spec i (Z.of_nat INTERFACES_TRACKED)); [reflexivity |].
    destruct Hbad as [? | [? | ->]]; [lia | lia | reflexivity]. }
  split; [exact Hstale |].
  unfold modifyFromRule, modifyLocalRoute. by rewrite Hstale.
Qed.

Lemma name_at_modifyRuleCount_kept_or_cleared p (i j : Z) (action : string) :
  name_at (modifyRuleCount i action p) j = name_at p j
  \/ name_at (modifyRuleCount i action p) j = EmptyString.
Proof.
  unfold modifyRuleCount.
  destruct (String.eqb action ADD); [by left |].
  destruct (wrap_int (count_at p i - 1) <? 1); [| by left].
  destruct (Z.eq_dec i j) as [-> | Hne]; [| left; by rewrite name_at_set_name_ne].
  unfold name_at. cbn.
  destruct (elem (store (mInterfaceTable p) j EmptyString) j) as [name|] eqn:Hel;
    [| by right].
  apply elem_store_same in Hel as ->. by right.
Qed.

Lemma modifyRoute_kept_or_cleared (action iface dest : string) (prefix : Z)
    (gateway : string) (i j : Z) s :
  name_at (pool (modifyRoute action iface dest prefix gateway i s).2) j
  = name_at (pool s) j
  \/ name_at (pool (modifyRoute action iface dest prefix gateway i s).2) j
     = EmptyString.
Proof.
  destruct (modifyRoute_pool action iface dest prefix gateway i s)
    as [[_ ->] | [_ ->]]; [by left |].
  destruct (name_at_modifyRuleCount_kept_or_cleared
              (modifyRuleCount i action (pool s)) i j action) as [-> | ->]; [| by right].
  apply name_at_modifyRuleCount_kept_or_cleared.
Qed.

(** X17: a slot that holds an interface is never handed to another one:
    after any public operation, whatever the external commands return, the
    slot still holds the same name or has been released. *)
Theorem occupied_slot_not_reassigned (o : Operation) (j : Z) s :
  name_at (pool s) j <> EmptyString ->
  name_at (pool (perform o s).2) j = name_at (pool s) j
  \/ name_at (pool (perform o s).2) j = EmptyString.
Proof.
  intros Hocc.
  assert (Halloc : findTableNumber (pool s) EmptyString <> -1 ->
            forall name,
              name_at (set_name (findTableNumber (pool s) EmptyString) name (pool s)) j
              = name_at (pool s) j).
  { intros Hfree name. apply name_at_set_name_ne. intros Heq.
    destruct (findTableNumber_free _ Hfree) as [_ Hempty]. congruence. }
  destruct o as [iface dest prefix gateway | iface dest prefix gateway
                | tableIndex action addr | tableIndex action iface addr
                | iface add | iface uid_start uid_end add]; cbn [perform].
  - unfold addRoute.
    destruct (findTableNumber (pool s) iface =? -1);
      [destruct (Z.eqb_spec (findTableNumber (pool s) EmptyString) (-1))
         as [_ | Hfree]; [by left |] |].
    + left. unfold name_at at 1. rewrite modifyRoute_ADD_table. by apply Halloc.
    + apply modifyRoute_kept_or_cleared.
  - unfold removeRoute.
    destruct (findTableNumber (pool s) iface =? -1); [by left |].
    apply modifyRoute_kept_or_cleared.
  - unfold modifyFromRule.
    destruct (verifyTableIndex (pool s) tableIndex =? 0); cbn [negb]; [| by left].
    match goal with
    | |- context [runCmd ?argv s] =>
        destruct (runCmd_spec argv s) as (_ & Hpool & _);
        destruct (runCmd argv s) as [ret s']
    end.
    cbn [fst snd] in *. destruct (ret =? 0); cbn [negb snd pool with_pool];
      rewrite Hpool; [| by left].
    apply name_at_modifyRuleCount_kept_or_cleared.
  - unfold modifyLocalRoute.
    destruct (verifyTableIndex (pool s) tableIndex =? 0); cbn [negb]; [| by left].
    match goal with
    | |- context [runCmd ?argv ?s'] =>
        destruct (runCmd_spec argv s') as (_ & -> & _)
    end.
    apply name_at_modifyRuleCount_kept_or_cleared.
  - left. unfold setFwmarkRule.
    destruct (findTableNumber (pool s) iface =? -1);
      [destruct (Z.eqb_spec (findTableNumber (pool s) EmptyString) (-1))
         as [_ | Hfree]; [reflexivity |] |];
      rewrite setFwmarkRule_commands_pool; [| reflexivity].
    by apply Halloc.
  - left. by rewrite setUidRule_pool.
Qed.

End Driver.

(** * The scenario of the specification, run on the model *)

#[local] Existing Instance scenario.
#[local] Existing Instance scripted.

(** C1 at its failing input: the first [addRoute] for wlan0, its route
    command succeeding, issues the one command of the scenario and leaves
    the slot with rule count 2; a second successful [addRoute] makes it 4,
    and one successful [removeRoute] brings it back to 2. *)
Theorem addRoute_success_counts_twice :
  let r1 := addRoute "wlan0" "10.0.0.0" 24 "::" (fresh []) in
  let r2 := addRoute "wlan0" "10.0.1.0" 24 "::" r1.2 in
  let r3 := removeRoute "wlan0" "10.0.1.0" 24 "::" r2.2 in
  r1.1 = 0
  /\ trace r1.2
     = [Exec ["/system/bin/ip"; "route"; "add"; "10.0.0.0/24"; "dev"; "wlan0";
              "table"; "100"];
        SendMsg CommandOkay "Route modified" false]
  /\ name_at (pool r1.2) 0 = "wlan0"
  /\ count_at (pool r1.2) 0 = 2
  /\ r2.1 = 0 /\ count_at (pool r2.2) 0 = 4
  /\ r3.1 = 0 /\ count_at (pool r3.2) 0 = 2.
Proof. vm_compute. repeat split. Qed.

(** C2 on one interface: on a fresh controller a successful
    [addFwmarkRule] for wlan0 takes slot 0 and leaves its count at 0, not 1;
    the successful [removeFwmarkRule] that follows leaves the slot named, so
    wlan0 is still found. *)
Lemma addFwmarkRule_success_leaves_count :
  let s := fresh [] in
  let r := addFwmarkRule "wlan0" s in
  let r' := removeFwmarkRule "wlan0" r.2 in
  r.1 = 0
  /\ findTableNumber (pool r.2) "wlan0" = 0
  /\ count_at (pool r.2) 0 <> count_at (pool s) 0 + 1
  /\ r'.1 = 0
  /\ name_at (pool r'.2) 0 = "wlan0"
  /\ findTableNumber (pool r'.2) "wlan0" <> -1.
Proof. vm_compute. repeat split; discriminate. Qed.

(** In the scenario wlan0 holds slot 0 with two rules; adding its fwmark
    rule changes neither the counts nor its name. *)
Lemma setFwmarkRule_counts_nothing_witness :
  let s := scenario_state ["wlan0"; ""] [2; 0] [] in
  name_at (pool s) 0 <> ""
  /\ mInterfaceRuleCount (pool (setFwmarkRule "wlan0" true s).2) = [2; 0]
  /\ name_at (pool (setFwmarkRule "wlan0" true s).2) 0 = "wlan0".
Proof.
  assert (Hname : name_at (pool (scenario_state ["wlan0"; ""] [2; 0] [])) 0 <> "")
    by (vm_compute; discriminate).
  split; [exact Hname |].
  destruct (setFwmarkRule_counts_nothing "wlan0" true
              (scenario_state ["wlan0"; ""] [2; 0] [])) as [Hcounts Hnames].
  split; [exact Hcounts | exact (Hnames 0 Hname)].
Defined.

(** Counterexample to C3: the constructed controller satisfies the invariant of the
    specification; after an [addRoute] whose route command fails, slot 0 is
    named wlan0 with count 0. *)
Lemma failed_addRoute_breaks_iff :
  let s := fresh [1] in
  let s' := (perform (OpAddRoute "wlan0" "10.0.0.0" 24 "::") s).2 in
  unoccupied_iff_unreferenced (pool s)
  /\ name_at (pool s') 0 = "wlan0" /\ count_at (pool s') 0 = 0
  /\ ~ unoccupied_iff_unreferenced (pool s').
Proof.
  cbv zeta. split; [| split; [| split]].
  - vm_compute. repeat constructor.
  - reflexivity.
  - reflexivity.
  - intros Hinv. vm_compute in Hinv.
    inversion Hinv as [|name n names counts [_ Hzero] _]; subst.
    discriminate (Hzero eq_refl).
Qed.

(** Witness for C3: after that failed [addRoute] the half of the
    invariant that the controller keeps still holds. *)
Lemma unoccupied_unreferenced_invariant_witness :
  let o := OpAddRoute "wlan0" "10.0.0.0" 24 "::" in
  names_an_interface o
  /\ unoccupied_unreferenced (pool (fresh [1]))
  /\ unoccupied_unreferenced (pool (perform o (fresh [1])).2).
Proof.
  cbv zeta.
  assert (Hname : names_an_interface (OpAddRoute "wlan0" "10.0.0.0" 24 "::"))
    by (cbn; discriminate).
  destruct (@unoccupied_unreferenced_invariant scenario (list Z) scripted)
    as [Hinit Hstep].
  split; [exact Hname |]. split; [exact (Hinit [1]) |].
  exact (Hstep _ (fresh [1]) Hname (Hinit [1])).
Defined.

(** Witness for C4: from a count of 1, two removals, an addition and two
    more removals: after the third step the count of wlan0 is not below
    zero, and the first removal already frees the slot. *)
Lemma ruleCount_never_negative_witness :
  let p := pool (scenario_state ["wlan0"; ""] [1; 0] []) in
  let actions := [DEL; DEL; ADD; DEL; DEL] in
  0 <= count_at p 0
  /\ count_at p 0 + Z.of_nat (length actions) <= INT_MAX
  /\ 0 <= count_at (modifyRuleCount_run 0 (take 3 actions) p) 0
  /\ count_at (modifyRuleCount 0 DEL p) 0 = 0
  /\ name_at (modifyRuleCount 0 DEL p) 0 = "".
Proof.
  cbv zeta.
  set (p := pool (scenario_state ["wlan0"; ""] [1; 0] [])).
  assert (Hc : 0 <= count_at p 0) by (vm_compute; discriminate).
  assert (Hb : count_at p 0 + Z.of_nat (length [DEL; DEL; ADD; DEL; DEL]) <= INT_MAX)
    by (vm_compute; discriminate).
  destruct (ruleCount_never_negative p 0 [DEL; DEL; ADD; DEL; DEL] Hc Hb)
    as [Hnn Hclamp].
  destruct (Hclamp DEL) as [Hzero Hname];
    [discriminate | vm_compute; discriminate |].
  split; [exact Hc |]. split; [exact Hb |]. split; [exact (Hnn 3%nat) |].
  split; [exact Hzero |]. apply Hname. vm_compute. split; [discriminate | reflexivity].
Defined.


(** Witness for C6: wlan0 holds slot 0 with one rule; the removal of its local
    route fails (status 1), and the slot is free all the same. *)
Lemma modifyLocalRoute_counts_before_running_witness :
  let s := scenario_state ["wlan0"; ""] [1; 0] [1] in
  let r := modifyLocalRoute 0 DEL "wlan0" "192.168.1.5" s in
  Pool_wf (pool s)
  /\ verifyTableIndex (pool s) 0 = 0
  /\ r.1 = 1
  /\ count_at (pool r.2) 0 = 0
  /\ name_at (pool r.2) 0 = ""
  /\ findTableNumber (pool r.2) "" <> -1.
Proof.
  cbv zeta.
  set (s := scenario_state ["wlan0"; ""] [1; 0] [1]).
  assert (Hwf : Pool_wf (pool s)).
  { solve_Pool_wf. }
  assert (Hvalid : verifyTableIndex (pool s) 0 = 0) by reflexivity.
  destruct (modifyLocalRoute_counts_before_running 0 DEL "wlan0" "192.168.1.5" s
              Hwf Hvalid) as (_ & Hret & _ & Hdel).
  destruct Hdel as [Hcount Hfree]; [discriminate | vm_compute; discriminate |].
  destruct Hfree as [Hname Hfound]; [vm_compute; discriminate |].
  split; [exact Hwf |]. split; [exact Hvalid |]. split; [exact Hret |].
  split; [exact Hcount |]. split; [exact Hname | exact Hfound].
Defined.

(** Witness for C7: eth0 is not tracked, and nothing is called for it; wlan0
    is tracked but the map refuses the range, and the map call is the only
    call; when the map accepts, one firewall rule follows. *)
Lemma setUidRule_error_cases_witness :
  let s := scenario_state ["wlan0"; ""] [2; 0] [1] in
  let ok := scenario_state ["wlan0"; ""] [2; 0] [] in
  ((setUidRule "eth0" 1000 1999 true s).1 = -1
   /\ errno (setUidRule "eth0" 1000 1999 true s).2 = Some EINVAL
   /\ trace (setUidRule "eth0" 1000 1999 true s).2 = [])
  /\ ((setUidRule "wlan0" 1000 1999 true s).1 = -1
      /\ errno (setUidRule "wlan0" 1000 1999 true s).2 = Some EINVAL
      /\ trace (setUidRule "wlan0" 1000 1999 true s).2 = [UidMarkMapAdd 1000 1999 100])
  /\ trace (setUidRule "wlan0" 1000 1999 true ok).2
     = [UidMarkMapAdd 1000 1999 100;
        Iptables V4V6
          ["-t"; "mangle"; "-A"; "st_mangle_OUTPUT"; "-m"; "owner"; "--uid-owner";
           "1000-1999"; "-j"; "MARK"; "--set-mark"; "100"]].
Proof.
  cbv zeta.
  destruct (setUidRule_error_cases "eth0" 1000 1999 true
              (scenario_state ["wlan0"; ""] [2; 0] [1])) as (_ & Hnone & _).
  destruct (setUidRule_error_cases "wlan0" 1000 1999 true
              (scenario_state ["wlan0"; ""] [2; 0] [1])) as (_ & _ & Hrefused & _).
  destruct (setUidRule_error_cases "wlan0" 1000 1999 true
              (scenario_state ["wlan0"; ""] [2; 0] [])) as (_ & _ & _ & Haccepted).
  destruct Hnone as (Hret & Herrno & _ & Htrace); [reflexivity |].
  destruct Hrefused as (Hret' & Herrno' & _ & Htrace'); [discriminate | reflexivity |].
  destruct Haccepted as (_ & _ & Htrace''); [discriminate | reflexivity |].
  split; [split; [exact Hret | split; [exact Herrno | exact Htrace]] |].
  split; [split; [exact Hret' | split; [exact Herrno' | exact Htrace']] |].
  exact Htrace''.
Defined.

(** Witness for C8: eth0 was never added; removing a route for it fails and
    leaves the pool of wlan0 alone. *)
Lemma removeRoute_untracked_witness :
  let s := scenario_state ["wlan0"; ""] [2; 0] [] in
  findTableNumber (pool s) "eth0" = -1
  /\ (removeRoute "eth0" "10.0.0.0" 24 "::" s).1 = -1
  /\ pool (removeRoute "eth0" "10.0.0.0" 24 "::" s).2 = pool s
  /\ trace (removeRoute "eth0" "10.0.0.0" 24 "::" s).2
     = [SendMsg OperationFailed "Interface not found" true].
Proof.
  cbv zeta.
  assert (Hnone : findTableNumber (pool (scenario_state ["wlan0"; ""] [2; 0] [])) "eth0"
                  = -1) by reflexivity.
  destruct (removeRoute_untracked "eth0" "10.0.0.0" 24 "::"
              (scenario_state ["wlan0"; ""] [2; 0] []) Hnone)
    as (Hret & Hpool & _ & _ & Htrace).
  split; [exact Hnone |]. split; [exact Hret |]. split; [exact Hpool | exact Htrace].
Defined.

(** Witness for C9: both tables of the scenario are taken; a third interface
    is refused and the two slots stay as they are. *)
Lemma allocation_fails_when_pool_full_witness :
  let s := scenario_state ["wlan0"; "eth0"] [2; 1] [] in
  pool_full (pool s)
  /\ findTableNumber (pool s) "rmnet0" = -1
  /\ (addRoute "rmnet0" "10.0.0.0" 24 "::" s).1 = -1
  /\ pool (addRoute "rmnet0" "10.0.0.0" 24 "::" s).2 = pool s
  /\ (addFwmarkRule "rmnet0" s).1 = -1
  /\ pool (addFwmarkRule "rmnet0" s).2 = pool s.
Proof.
  cbv zeta.
  set (s := scenario_state ["wlan0"; "eth0"] [2; 1] []).
  assert (Hfull : pool_full (pool s)) by (repeat constructor; discriminate).
  assert (Hnone : findTableNumber (pool s) "rmnet0" = -1) by reflexivity.
  destruct (allocation_fails_when_pool_full "rmnet0" "10.0.0.0" 24 "::" s Hfull Hnone)
    as [(Hret & _ & Hpool & _) (Hret' & _ & Hpool' & _)].
  split; [exact Hfull |]. split; [exact Hnone |]. split; [exact Hret |].
  split; [exact Hpool |]. split; [exact Hret' | exact Hpool'].
Defined.

(** Witness for C10: wlan0 holds slot 0 and slot 1 is the least free one; eth0
    is not found, and both allocating operations put it into slot 1. *)
Lemma allocation_takes_least_free_slot_witness :
  let s := scenario_state ["wlan0"; ""] [2; 0] [] in
  Pool_wf (pool s)
  /\ findTableNumber (pool s) "eth0" = -1
  /\ findTableNumber (pool s) "" = 1
  /\ mInterfaceTable (pool (addRoute "eth0" "10.0.0.0" 24 "::" s).2) = ["wlan0"; "eth0"]
  /\ mInterfaceTable (pool (setFwmarkRule "eth0" true s).2) = ["wlan0"; "eth0"].
Proof.
  cbv zeta.
  set (s := scenario_state ["wlan0"; ""] [2; 0] []).
  assert (Hwf : Pool_wf (pool s)).
  { solve_Pool_wf. }
  assert (Hnone : findTableNumber (pool s) "eth0" = -1) by reflexivity.
  destruct (allocation_takes_least_free_slot "eth0" "10.0.0.0" 24 "::" true s Hwf)
    as [_ Halloc].
  destruct Halloc as (_ & Hadd & Hfw); [exact Hnone | discriminate |].
  split; [exact Hwf |]. split; [exact Hnone |]. split; [reflexivity |].
  split; [exact Hadd |]. rewrite Hfw. reflexivity.
Defined.

(** Witness for X1: the constructed controller of the scenario is well
    formed, and still is after a failed [addRoute]. *)
Lemma Pool_wf_invariant_witness :
  Pool_wf (pool (fresh [1]))
  /\ Pool_wf (pool (perform (OpAddRoute "wlan0" "10.0.0.0" 24 "::") (fresh [1])).2).
Proof.
  destruct (@Pool_wf_invariant scenario (list Z) scripted) as [Hinit Hstep].
  split; [exact (Hinit [1]) | exact (Hstep _ (fresh [1]) (Hinit [1]))].
Defined.

(** Witness for X2: the four requests of the scenario, from the
    constructed controller, leave every count between 0 and 8. *)
Lemma counts_never_negative_witness :
  let ops := [OpAddRoute "wlan0" "10.0.0.0" 24 "::"; OpSetFwmarkRule "wlan0" true;
              OpRemoveRoute "wlan0" "10.0.0.0" 24 "::"; OpSetFwmarkRule "wlan0" false] in
  counts_within 0 (pool (fresh []))
  /\ counts_within 8 (pool (run ops (fresh []))).
Proof.
  cbv zeta.
  assert (Hin : counts_within 0 (pool (fresh []))).
  { split; [lia |]. repeat first [apply Forall_nil_2 | apply Forall_cons_2]; lia. }
  split; [exact Hin |].
  apply (counts_never_negative
           [OpAddRoute "wlan0" "10.0.0.0" 24 "::"; OpSetFwmarkRule "wlan0" true;
            OpRemoveRoute "wlan0" "10.0.0.0" 24 "::"; OpSetFwmarkRule "wlan0" false]
           0 (fresh []) Hin).
  vm_compute. discriminate.
Defined.

(** Witness for X3: a successful route addition for the tracked wlan0
    takes its count from 0 to 2. *)
Lemma modifyRoute_success_counts_twice_witness :
  let s := scenario_state ["wlan0"; ""] [0; 0] [] in
  (modifyRoute ADD "wlan0" "10.0.0.0" 24 "::" 0 s).1 = 0
  /\ pool (modifyRoute ADD "wlan0" "10.0.0.0" 24 "::" 0 s).2
     = modifyRuleCount 0 ADD (modifyRuleCount 0 ADD (pool s)).
Proof.
  cbv zeta.
  assert (Hret : (modifyRoute ADD "wlan0" "10.0.0.0" 24 "::" 0
                    (scenario_state ["wlan0"; ""] [0; 0] [])).1 = 0) by reflexivity.
  split; [exact Hret |].
  exact (proj1 (modifyRoute_success_counts_twice ADD "wlan0" "10.0.0.0" 24 "::" 0
                  (scenario_state ["wlan0"; ""] [0; 0] [])) Hret).
Defined.

(** Why C3 asks [addRoute] for a name: given the empty string on the
    constructed controller it finds the free slot 0 as if it were tracked,
    and a successful route command leaves that slot unnamed with count 2. *)
Remark addRoute_empty_name_counts_unnamed_slot :
  let r := addRoute "" "10.0.0.0" 24 "::" (fresh []) in
  r.1 = 0 /\ name_at (pool r.2) 0 = "" /\ count_at (pool r.2) 0 = 2.
Proof. vm_compute. repeat split. Qed.

(** Witness for X4: eth0 was never added; [removeRoute] for it is answered
    once, by a failure; the first [addRoute] for wlan0 is answered once,
    by success. *)
Lemma route_requests_answered_once_witness :
  answered_once (fresh []) (addRoute "wlan0" "10.0.0.0" 24 "::" (fresh []))
  /\ answered_once (fresh []) (removeRoute "eth0" "10.0.0.0" 24 "::" (fresh [])).
Proof.
  split.
  - exact (proj1 (route_requests_answered_once "wlan0" "10.0.0.0" 24 "::" (fresh []))).
  - exact (proj2 (route_requests_answered_once "eth0" "10.0.0.0" 24 "::" (fresh []))).
Defined.

(** Witness for X5: the route of the scenario without a gateway, and the
    same route through 10.0.0.1. *)
Lemma modifyRoute_command_witness :
  let s := scenario_state ["wlan0"; ""] [0; 0] [] in
  (exists reply,
     is_reply reply = true
     /\ trace (modifyRoute ADD "wlan0" "10.0.0.0" 24 "::" 0 s).2
        = [Exec ["/system/bin/ip"; "route"; "add"; "10.0.0.0/24"; "dev"; "wlan0";
                 "table"; "100"]; reply])
  /\ (exists reply,
        is_reply reply = true
        /\ trace (modifyRoute ADD "wlan0" "10.0.0.0" 24 "10.0.0.1" 0 s).2
           = [Exec ["/system/bin/ip"; "route"; "add"; "10.0.0.0/24"; "via"; "10.0.0.1";
                    "dev"; "wlan0"; "table"; "100"]; reply]).
Proof.
  cbv zeta.
  destruct (modifyRoute_command ADD "wlan0" "10.0.0.0" 24 "::" 0
              (scenario_state ["wlan0"; ""] [0; 0] [])) as (_ & _ & Hdev & _).
  destruct (modifyRoute_command ADD "wlan0" "10.0.0.0" 24 "10.0.0.1" 0
              (scenario_state ["wlan0"; ""] [0; 0] [])) as (_ & _ & _ & Hvia).
  split; [exact (Hdev eq_refl) | apply Hvia; discriminate].
Defined.

(** Witness for X6: wlan0 holds slot 0 with two rules; a source rule whose
    command fails is not counted, one whose command succeeds is. *)
Lemma modifyFromRule_counts_on_success_only_witness :
  let failing := scenario_state ["wlan0"; ""] [2; 0] [1] in
  let working := scenario_state ["wlan0"; ""] [2; 0] [] in
  verifyTableIndex (pool failing) 0 = 0
  /\ (modifyFromRule 0 ADD "192.168.1.5" failing).1 = -1
  /\ pool (modifyFromRule 0 ADD "192.168.1.5" failing).2 = pool failing
  /\ (modifyFromRule 0 ADD "192.168.1.5" working).1 = 0
  /\ pool (modifyFromRule 0 ADD "192.168.1.5" working).2
     = modifyRuleCount 0 ADD (pool working).
Proof.
  cbv zeta.
  assert (Hvalid : verifyTableIndex (pool (scenario_state ["wlan0"; ""] [2; 0] [1])) 0 = 0)
    by reflexivity.
  destruct (modifyFromRule_counts_on_success_only 0 ADD "192.168.1.5"
              (scenario_state ["wlan0"; ""] [2; 0] [1])) as [_ Hfail].
  destruct (modifyFromRule_counts_on_success_only 0 ADD "192.168.1.5"
              (scenario_state ["wlan0"; ""] [2; 0] [])) as [_ Hwork].
  destruct (Hfail Hvalid) as (_ & _ & _ & Hf & _).
  destruct (Hwork Hvalid) as (_ & _ & _ & _ & Hw).
  destruct Hf as [Hret Hpool]; [discriminate |].
  destruct Hw as [Hret' Hpool']; [reflexivity |].
  split; [exact Hvalid |]. split; [exact Hret |]. split; [exact Hpool |].
  split; [exact Hret' | exact Hpool'].
Defined.

(** Witness for X7: wlan0 holds slot 0; its fwmark rule fails with status
    1, which is returned, and no NAT rule is attempted. *)
Lemma setFwmarkRule_nat_follows_fwmark_witness :
  let s := scenario_state ["wlan0"; ""] [2; 0] [1] in
  findTableNumber (pool s) "wlan0" = 0
  /\ (setFwmarkRule "wlan0" true s).1 = 1
  /\ trace (setFwmarkRule "wlan0" true s).2
     = [Exec ["/system/bin/ip"; "rule"; "add"; "fwmark"; "100"; "table"; "100"]].
Proof.
  cbv zeta.
  assert (Hfind : findTableNumber (pool (scenario_state ["wlan0"; ""] [2; 0] [1])) "wlan0"
                  = 0) by reflexivity.
  destruct (setFwmarkRule_nat_follows_fwmark "wlan0" true 0
              (scenario_state ["wlan0"; ""] [2; 0] [1]) Hfind)
    as (_ & _ & Hfail & _); [discriminate |].
  destruct Hfail as (Hret & _ & Htrace); [discriminate |].
  split; [exact Hfind |]. split; [exact Hret | exact Htrace].
Defined.

(** Witness for X8: the names of the constructed controller are distinct,
    and still are after wlan0 has been given a slot. *)
Lemma distinct_names_invariant_witness :
  let o := OpAddRoute "wlan0" "10.0.0.0" 24 "::" in
  names_fit o
  /\ distinct_names (pool (fresh []))
  /\ distinct_names (pool (perform o (fresh [])).2).
Proof.
  cbv zeta.
  assert (Hfits : names_fit (OpAddRoute "wlan0" "10.0.0.0" 24 "::"))
    by (vm_compute; lia).
  destruct (@distinct_names_invariant scenario (list Z) scripted) as [Hinit Hstep].
  split; [exact Hfits |]. split; [exact (Hinit []) |].
  exact (Hstep _ (fresh []) Hfits (Hinit [])).
Defined.

(** Witness for X9: with wlan0 in slot 0 and eth0 in slot 1, eth0 is found
    at the valid index 1, whose row holds eth0, and the name in row 1 is
    found at 1. *)
Lemma name_index_round_trip_witness :
  let p := pool (scenario_state ["wlan0"; "eth0"] [2; 1] []) in
  Pool_wf p /\ distinct_names p
  /\ findTableNumber p "eth0" = 1
  /\ verifyTableIndex p 1 = 0
  /\ name_at p 1 = "eth0"
  /\ findTableNumber p (name_at p 1) = 1.
Proof.
  cbv zeta.
  set (p := pool (scenario_state ["wlan0"; "eth0"] [2; 1] [])).
  assert (Hwf : Pool_wf p) by solve_Pool_wf.
  assert (Hdist : distinct_names p) by solve_distinct_names.
  assert (Hfind : findTableNumber p "eth0" = 1) by reflexivity.
  destruct (name_index_round_trip p "eth0" 1 Hwf Hdist) as [Hto Hfrom].
  destruct Hto as [Hvalid Hname]; [discriminate | exact Hfind | discriminate |].
  split; [exact Hwf |]. split; [exact Hdist |]. split; [exact Hfind |].
  split; [exact Hvalid |]. split; [exact Hname | exact (Hfrom Hvalid)].
Defined.

(** Witness for X10: wlan0 holds slot 0 with the two counts of one route;
    removing that route releases the slot. *)
Lemma removeRoute_releases_slot_witness :
  let s := scenario_state ["wlan0"; ""] [2; 0] [] in
  let p' := pool (removeRoute "wlan0" "10.0.0.0" 24 "::" s).2 in
  Pool_wf (pool s) /\ distinct_names (pool s)
  /\ findTableNumber (pool s) "wlan0" = 0
  /\ (removeRoute "wlan0" "10.0.0.0" 24 "::" s).1 = 0
  /\ findTableNumber p' "wlan0" = -1
  /\ verifyTableIndex p' 0 = -1
  /\ count_at p' 0 = 0.
Proof.
  cbv zeta.
  set (s := scenario_state ["wlan0"; ""] [2; 0] []).
  assert (Hwf : Pool_wf (pool s)) by solve_Pool_wf.
  assert (Hdist : distinct_names (pool s)) by solve_distinct_names.
  assert (Hfind : findTableNumber (pool s) "wlan0" = 0) by reflexivity.
  assert (Hret : (removeRoute "wlan0" "10.0.0.0" 24 "::" s).1 = 0) by reflexivity.
  destruct (removeRoute_releases_slot "wlan0" "10.0.0.0" 24 "::" 0 s Hwf Hdist)
    as (Hnone & Hstale & Hzero & _);
    [discriminate | exact Hfind | discriminate | vm_compute; split; discriminate
    | exact Hret |].
  split; [exact Hwf |]. split; [exact Hdist |]. split; [exact Hfind |].
  split; [exact Hret |]. split; [exact Hnone |]. split; [exact Hstale | exact Hzero].
Defined.

(** Witness for X11: on the constructed controller, adding a route for
    wlan0 and removing it again gives back the constructed pool. *)
Lemma addRoute_then_removeRoute_restores_witness :
  let s := fresh [] in
  let r1 := addRoute "wlan0" "10.0.0.0" 24 "::" s in
  let r2 := removeRoute "wlan0" "10.0.0.0" 24 "::" r1.2 in
  unoccupied_unreferenced (pool s)
  /\ findTableNumber (pool s) "wlan0" = -1
  /\ r1.1 = 0 /\ r2.1 = 0
  /\ pool r2.2 = pool s.
Proof.
  cbv zeta.
  assert (Hinv : unoccupied_unreferenced (pool (fresh []))).
  { unfold unoccupied_unreferenced. cbn. repeat (constructor; [reflexivity |]).
    constructor. }
  assert (Hnone : findTableNumber (pool (fresh [])) "wlan0" = -1) by reflexivity.
  assert (Hret1 : (addRoute "wlan0" "10.0.0.0" 24 "::" (fresh [])).1 = 0) by reflexivity.
  assert (Hret2 : (removeRoute "wlan0" "10.0.0.0" 24 "::"
                     (addRoute "wlan0" "10.0.0.0" 24 "::" (fresh [])).2).1 = 0)
    by reflexivity.
  split; [exact Hinv |]. split; [exact Hnone |]. split; [exact Hret1 |].
  split; [exact Hret2 |].
  apply (addRoute_then_removeRoute_restores "wlan0" "10.0.0.0" "10.0.0.0" 24 24 "::" "::"
           (fresh []) Hinv); [vm_compute; lia | exact Hnone | discriminate
                             | exact Hret1 | exact Hret2].
Defined.

(** Witness for X12: a name of 17 characters is not found, takes slot 1
    with its first 16 characters, and is not found afterwards either. *)
Lemma overlong_name_never_tracked_witness :
  let s := scenario_state ["wlan0"; ""] [2; 0] [] in
  let iface := "abcdefghijklmnopq" in
  Pool_wf (pool s)
  /\ (IFNAMSIZ < String.length iface)%nat
  /\ findTableNumber (pool s) iface = -1
  /\ name_at (pool (addRoute iface "10.0.0.0" 24 "::" s).2) 1 = "abcdefghijklmnop"
  /\ findTableNumber (pool (addRoute iface "10.0.0.0" 24 "::" s).2) iface = -1.
Proof.
  cbv zeta.
  set (s := scenario_state ["wlan0"; ""] [2; 0] []).
  assert (Hwf : Pool_wf (pool s)) by solve_Pool_wf.
  assert (Hlong : (IFNAMSIZ < String.length "abcdefghijklmnopq")%nat)
    by (vm_compute; lia).
  destruct (overlong_name_never_tracked "abcdefghijklmnopq" "10.0.0.0" 24 "::" true s
              Hwf Hlong) as (Hnone & Hafter & _ & Htaken).
  destruct Htaken as (Hstored & _); [discriminate |].
  split; [exact Hwf |]. split; [exact Hlong |]. split; [exact Hnone |].
  split; [exact Hstored | exact Hafter].
Defined.

(** Witness for X13: allocating slot 1 for eth0 leaves slot 0, wlan0 with
    its two rules, as it was. *)
Lemma perform_touches_one_slot_witness :
  let s := scenario_state ["wlan0"; ""] [2; 0] [] in
  let o := OpAddRoute "eth0" "10.0.2.0" 24 "::" in
  addressed_slot o (pool s) = 1
  /\ name_at (pool (perform o s).2) 0 = "wlan0"
  /\ count_at (pool (perform o s).2) 0 = 2.
Proof.
  cbv zeta. split; [reflexivity |].
  apply (perform_touches_one_slot (OpAddRoute "eth0" "10.0.2.0" 24 "::") 0
           (scenario_state ["wlan0"; ""] [2; 0] [])).
  discriminate.
Defined.

(** Witness for X14: a link-local IPv6 address has a colon and gets "-6";
    a dotted IPv4 address gets "-4". *)
Lemma getVersion_by_colon_witness :
  (exists a b, "fe80::1" = a +:+ ":" +:+ b)
  /\ getVersion "fe80::1" = "-6"
  /\ getVersion "192.168.1.5" = "-4".
Proof.
  assert (Hex : exists a b, "fe80::1" = a +:+ ":" +:+ b)
    by (exists "fe80", ":1"; reflexivity).
  split; [exact Hex |].
  split; [exact (proj2 (proj1 (getVersion_by_colon "fe80::1")) Hex) | reflexivity].
Defined.

(** Witness for X15: the constructed controller of the scenario does not
    know wlan0, refuses index 0, and its free slot is slot 0. *)
Lemma fresh_controller_tracks_nothing_witness :
  findTableNumber (pool (fresh [])) "wlan0" = -1
  /\ verifyTableIndex (pool (fresh [])) 0 = -1
  /\ modifyFromRule 0 ADD "192.168.1.5" (fresh []) = (-1, fresh [])
  /\ findTableNumber (pool (fresh [])) "" = 0.
Proof.
  destruct (@fresh_controller_tracks_nothing scenario (list Z) scripted []
              "wlan0" ADD "192.168.1.5" 0) as (Hnone & Hstale & Hrule & _ & Hfree & _).
  split; [apply Hnone; discriminate |]. split; [exact Hstale |].
  split; [exact Hrule | apply Hfree; vm_compute; lia].
Defined.

(** Witness for X16: index 5 is beyond the two tables of the scenario. *)
Lemma refused_index_changes_nothing_witness :
  let s := scenario_state ["wlan0"; ""] [2; 0] [] in
  Z.of_nat INTERFACES_TRACKED <= 5
  /\ verifyTableIndex (pool s) 5 = -1
  /\ modifyLocalRoute 5 DEL "wlan0" "192.168.1.5" s = (-1, s).
Proof.
  cbv zeta.
  assert (Hbeyond : Z.of_nat INTERFACES_TRACKED <= 5) by (vm_compute; discriminate).
  destruct (refused_index_changes_nothing 5 DEL "wlan0" "192.168.1.5"
              (scenario_state ["wlan0"; ""] [2; 0] []))
    as (Hstale & _ & Hlocal); [right; left; exact Hbeyond |].
  split; [exact Hbeyond |]. split; [exact Hstale | exact Hlocal].
Defined.

(** Witness for X17: wlan0 holds slot 0; a request for eth0 leaves the
    name of slot 0 alone or empty, never eth0. *)
Lemma occupied_slot_not_reassigned_witness :
  let s := scenario_state ["wlan0"; ""] [2; 0] [] in
  let o := OpSetFwmarkRule "eth0" true in
  name_at (pool s) 0 <> ""
  /\ (name_at (pool (perform o s).2) 0 = name_at (pool s) 0
      \/ name_at (pool (perform o s).2) 0 = "").
Proof.
  cbv zeta.
  assert (Hocc : name_at (pool (scenario_state ["wlan0"; ""] [2; 0] [])) 0 <> "")
    by (vm_compute; discriminate).
  split; [exact Hocc |].
  exact (occupied_slot_not_reassigned (OpSetFwmarkRule "eth0" true) 0
           (scenario_state ["wlan0"; ""] [2; 0] []) Hocc).
Defined.

(** C2 at its failing input: on the constructed controller of the scenario
    (two tables), with every command succeeding, the fwmark rule of wlan0
    is added and removed, then that of eth0 is added and removed.  No rule
    is counted and no slot is released: wlan0 is still found after its
    rule is removed, both slots end named with count 0, and the [addRoute]
    that follows for rmnet0 is refused for want of a free slot.  Removing
    the fwmark rule of an interface that has no slot even takes one. *)
Theorem fwmark_rules_leak_slots :
  let r1 := addFwmarkRule "wlan0" (fresh []) in
  let r2 := removeFwmarkRule "wlan0" r1.2 in
  let r3 := addFwmarkRule "eth0" r2.2 in
  let r4 := removeFwmarkRule "eth0" r3.2 in
  let r5 := addRoute "rmnet0" "10.0.0.0" 24 "::" r4.2 in
  let alone := removeFwmarkRule "eth0" r2.2 in
  r1.1 = 0 /\ pool r1.2 = pool (scenario_state ["wlan0"; ""] [0; 0] [])
  /\ r2.1 = 0 /\ pool r2.2 = pool r1.2
  /\ findTableNumber (pool r2.2) "wlan0" = 0
  /\ r3.1 = 0 /\ r4.1 = 0
  /\ pool r4.2 = pool (scenario_state ["wlan0"; "eth0"] [0; 0] [])
  /\ r5.1 = -1 /\ errno r5.2 = Some ENODEV
  /\ replies (trace r5.2) = [SendMsg OperationFailed "Max number NATed" true]
  /\ alone.1 = 0 /\ pool alone.2 = pool r4.2.
Proof. vm_compute. repeat split. Qed.

